(** * Clean Code MCP server: the planning-session tracker of [src/index.ts]

    A shallow embedding of the class [CleanCodePlanningServer]
    ([validateCodePlanningData], [formatCodeReflection],
    [processCodePlanning]) together with the fragment of JavaScript the
    three methods rely on: truthiness, [typeof], the relational operators
    on numbers, [ToString] in template literals, property keys of an
    ordinary object and the order of [Object.keys]. *)

From Stdlib Require Import List ZArith NArith QArith Bool Lia.
From Stdlib Require Import Ascii String DecimalString.
From Stdlib Require Import Permutation Sorted.
Import ListNotations.

Set Warnings "-register-all".
Local Open Scope Z_scope.

(** ** JavaScript strings

    A JavaScript string is a sequence of UTF-16 code units and [.length]
    counts code units, so an astral character such as an emoji counts
    for two. *)

Definition code_unit := N.
Definition jsstring := list code_unit.

(** An ASCII source literal as a JavaScript string. *)
Definition lit (s : string) : jsstring :=
  map N_of_ascii (list_ascii_of_string s).

Definition jsstring_eqb (a b : jsstring) : bool :=
  if list_eq_dec N.eq_dec a b then true else false.

(** [String.prototype.repeat] on a one-unit string. *)
Definition repeat_unit (c : code_unit) (count : nat) : jsstring :=
  repeat c count.

(** [String.prototype.padEnd(targetLength)] with the default filler, a
    space. *)
Definition padEnd (s : jsstring) (targetLength : nat) : jsstring :=
  s ++ repeat 32%N (targetLength - List.length s).

(** ** JavaScript numbers

    A Number is NaN, an infinity, or a finite double.  Finite doubles are
    rationals and [<], [>], [<=], [>=] compare them as rationals, so the
    finite numbers are embedded in [Q]; both zeros are the rational zero
    (the code never separates them: the two are falsy and print alike). *)

Inductive number : Type :=
| NaN
| Infinity (negative : bool)
| Finite (q : Q).

Definition of_Z (z : Z) : number := Finite (inject_Z z).

(** [a < b] of the language: false as soon as one side is NaN. *)
Definition number_lt (a b : number) : bool :=
  match a, b with
  | NaN, _ | _, NaN => false
  | Infinity na, Infinity nb => na && negb nb
  | Infinity na, Finite _ => na
  | Finite _, Infinity nb => negb nb
  | Finite x, Finite y => negb (Qle_bool y x)
  end.

Definition number_gt (a b : number) : bool := number_lt b a.

(** [a <= b] of the language: [b < a] is neither true nor undefined. *)
Definition number_le (a b : number) : bool :=
  match a, b with
  | NaN, _ | _, NaN => false
  | _, _ => negb (number_lt b a)
  end.

Definition number_ge (a b : number) : bool := number_le b a.

(** [ToBoolean] on a number: NaN and the zeros are falsy. *)
Definition number_truthy (n : number) : bool :=
  match n with
  | NaN => false
  | Infinity _ => true
  | Finite q => negb (Qnum q =? 0)
  end.

Definition is_integer (q : Q) : bool :=
  (Qnum q mod Zpos (Qden q) =? 0).

Definition decimal (z : Z) : jsstring :=
  lit (NilZero.string_of_int (Z.to_int z)).

(** ** Values

    The values that reach the server: what [JSON.parse] builds, and
    [undefined] for an argument the request leaves out. *)

Inductive JsValue : Type :=
| JUndefined
| JNull
| JBool (b : bool)
| JNumber (n : number)
| JString (s : jsstring)
| JArray (items : list JsValue)
| JObject (props : list (jsstring * JsValue)).

(** Abrupt completions: the [Error] the validator constructs, and the
    [TypeError]s the engine raises.  [TypeError] is a subclass of [Error],
    so [instanceof Error] holds of both. *)
Inductive type_error : Type :=
| ReadPropertyOfNullish (base : JsValue) (key : jsstring)
| NotAFunction
| CannotConvertToPrimitive.

Inductive exn : Type :=
| Error (message : jsstring)
| TypeError (why : type_error).

Inductive completion (A : Type) : Type :=
| Return (a : A)
| Throw (e : exn).
Arguments Return {A} a.
Arguments Throw {A} e.

Definition cbind {A B} (c : completion A) (k : A -> completion B)
  : completion B :=
  match c with
  | Return a => k a
  | Throw e => Throw e
  end.

Declare Scope completion_scope.
Delimit Scope completion_scope with completion.
Notation "x <- c ;; k" := (cbind c (fun x => k))
  (at level 61, c at next level, right associativity) : completion_scope.

(** [ToBoolean]. *)
Definition truthy (v : JsValue) : bool :=
  match v with
  | JUndefined | JNull => false
  | JBool b => b
  | JNumber n => number_truthy n
  | JString s => negb (Nat.eqb (List.length s) 0)
  | JArray _ | JObject _ => true
  end.

Inductive type_tag : Type :=
| TUndefined | TObject | TBoolean | TNumber | TString.

Definition typeof (v : JsValue) : type_tag :=
  match v with
  | JUndefined => TUndefined
  | JNull | JArray _ | JObject _ => TObject
  | JBool _ => TBoolean
  | JNumber _ => TNumber
  | JString _ => TString
  end.

Definition type_tag_eqb (a b : type_tag) : bool :=
  match a, b with
  | TUndefined, TUndefined | TObject, TObject | TBoolean, TBoolean
  | TNumber, TNumber | TString, TString => true
  | _, _ => false
  end.

Fixpoint own_property (props : list (jsstring * JsValue)) (key : jsstring)
  : option JsValue :=
  match props with
  | [] => None
  | (k, v) :: rest =>
      if jsstring_eqb k key then Some v else own_property rest key
  end.

(** [base.key] for a key that no prototype defines (the nine field names
    of a planning step are of that kind): the own property of an object,
    [undefined] on an array or a primitive, a [TypeError] on [undefined]
    and [null]. *)
Definition Get (base : JsValue) (key : jsstring) : completion JsValue :=
  match base with
  | JUndefined | JNull => Throw (TypeError (ReadPropertyOfNullish base key))
  | JObject props =>
      match own_property props key with
      | Some v => Return v
      | None => Return JUndefined
      end
  | _ => Return JUndefined
  end.

(** [error.message].  The wording of an engine-raised [TypeError] is the
    engine's (here V8's, the engine of Node.js); the [Error] of the
    validator carries the message it was constructed with. *)
Definition quote_key (key : jsstring) : jsstring :=
  lit " (reading '" ++ key ++ lit "')".

Definition exn_message (e : exn) : jsstring :=
  match e with
  | Error message => message
  | TypeError (ReadPropertyOfNullish JNull key) =>
      lit "Cannot read properties of null" ++ quote_key key
  | TypeError (ReadPropertyOfNullish _ key) =>
      lit "Cannot read properties of undefined" ++ quote_key key
  | TypeError NotAFunction =>
      lit "this.branches[validatedInput.branchId].push is not a function"
  | TypeError CannotConvertToPrimitive =>
      lit "Cannot convert object to primitive value"
  end.

(** ** Conversion to string *)

Section Engine.

(** Two things the process gets from outside.  [Number::toString] prints
    a safe integer (below 2^53 in magnitude) as its decimal digits; the
    shortest-round-trip digits of the other finite doubles are the
    engine's business and stay a parameter.  [level] is the colour level
    [chalk] found at start-up. *)
Variable Number_toString_other : Q -> jsstring.
Variable level : nat.

Definition Number_toString (n : number) : jsstring :=
  match n with
  | NaN => lit "NaN"
  | Infinity false => lit "Infinity"
  | Infinity true => lit "-Infinity"
  | Finite q =>
      let z := Qnum q / Zpos (Qden q) in
      if is_integer q && (Z.abs z <? 2 ^ 53)
      then decimal z
      else Number_toString_other q
  end.

(** [ToString], as a template literal and a computed property key apply
    it.  An array goes through [Array.prototype.join]: elements
    separated by commas, [undefined] and [null] printed as nothing.  An
    object built by [JSON.parse] has no callable property of its own:
    with an own ["toString"] neither [toString] nor the inherited
    [valueOf] yields a primitive and the conversion throws; without one
    [Object.prototype.toString] answers. *)
Fixpoint ToString (v : JsValue) : completion jsstring :=
  match v with
  | JUndefined => Return (lit "undefined")
  | JNull => Return (lit "null")
  | JBool true => Return (lit "true")
  | JBool false => Return (lit "false")
  | JNumber n => Return (Number_toString n)
  | JString s => Return s
  | JArray items =>
      (fix join (l : list JsValue) : completion jsstring :=
         match l with
         | [] => Return []
         | x :: rest =>
             let element :=
               match x with
               | JUndefined | JNull => Return []
               | _ => ToString x
               end in
             cbind element (fun s =>
             match rest with
             | [] => Return s
             | _ => cbind (join rest) (fun t => Return (s ++ 44%N :: t))
             end)
         end) items
  | JObject props =>
      match own_property props (lit "toString") with
      | Some _ => Throw (TypeError CannotConvertToPrimitive)
      | None => Return (lit "[object Object]")
      end
  end.


(** ** The planning step *)

(** [interface CodePlanningData].  The validator checks four fields; the
    five others are kept as they came ([as boolean | undefined] and the
    like are unchecked casts), so they hold arbitrary values. *)
Record CodePlanningData : Type := {
  codeReflection : jsstring;
  stepNumber : number;
  totalSteps : number;
  isRevision : JsValue;
  revisesStep : JsValue;
  branchFromStep : JsValue;
  branchId : JsValue;
  needsMoreSteps : JsValue;
  nextStepNeeded : bool
}.

(** [validatedInput.totalSteps = n]. *)
Definition set_totalSteps (d : CodePlanningData) (n : number)
  : CodePlanningData :=
  {| codeReflection := codeReflection d;
     stepNumber := stepNumber d;
     totalSteps := n;
     isRevision := isRevision d;
     revisesStep := revisesStep d;
     branchFromStep := branchFromStep d;
     branchId := branchId d;
     needsMoreSteps := needsMoreSteps d;
     nextStepNeeded := nextStepNeeded d |}.

Definition msg_codeReflection : jsstring :=
  lit "Invalid codeReflection: must be a string".
Definition msg_stepNumber : jsstring :=
  lit "Invalid stepNumber: must be a number".
Definition msg_totalSteps : jsstring :=
  lit "Invalid totalSteps: must be a number".
Definition msg_nextStepNeeded : jsstring :=
  lit "Invalid nextStepNeeded: must be a boolean".

(** What the unchecked reads [data.f] of the returned object hold once the
    guard on [f] has passed. *)
Definition as_string (v : JsValue) : jsstring :=
  match v with JString s => s | _ => [] end.
Definition as_number (v : JsValue) : number :=
  match v with JNumber n => n | _ => NaN end.
Definition as_boolean (v : JsValue) : bool :=
  match v with JBool b => b | _ => false end.

(** The guard [!v || typeof v !== T] of the first three checks. *)
Definition missing_or_not (T : type_tag) (v : JsValue) : bool :=
  negb (truthy v) || negb (type_tag_eqb (typeof v) T).

(** [validateCodePlanningData]. *)
Definition validateCodePlanningData (input : JsValue)
  : completion CodePlanningData :=
  (data_codeReflection <- Get input (lit "codeReflection") ;;
   if missing_or_not TString data_codeReflection
   then Throw (Error msg_codeReflection) else
   data_stepNumber <- Get input (lit "stepNumber") ;;
   if missing_or_not TNumber data_stepNumber
   then Throw (Error msg_stepNumber) else
   data_totalSteps <- Get input (lit "totalSteps") ;;
   if missing_or_not TNumber data_totalSteps
   then Throw (Error msg_totalSteps) else
   data_nextStepNeeded <- Get input (lit "nextStepNeeded") ;;
   if negb (type_tag_eqb (typeof data_nextStepNeeded) TBoolean)
   then Throw (Error msg_nextStepNeeded) else
   data_isRevision <- Get input (lit "isRevision") ;;
   data_revisesStep <- Get input (lit "revisesStep") ;;
   data_branchFromStep <- Get input (lit "branchFromStep") ;;
   data_branchId <- Get input (lit "branchId") ;;
   data_needsMoreSteps <- Get input (lit "needsMoreSteps") ;;
   Return {| codeReflection := as_string data_codeReflection;
             stepNumber := as_number data_stepNumber;
             totalSteps := as_number data_totalSteps;
             nextStepNeeded := as_boolean data_nextStepNeeded;
             isRevision := data_isRevision;
             revisesStep := data_revisesStep;
             branchFromStep := data_branchFromStep;
             branchId := data_branchId;
             needsMoreSteps := data_needsMoreSteps |})%completion.

(** ** Rendering *)

(** The three styles of [chalk] the source uses.  [chalk] (an npm package)
    returns its argument as it is when colour is off (level 0, the case
    of a process whose output is not a terminal) and otherwise wraps it in
    the SGR escape sequence of the colour and the one that resets the
    foreground. *)
Definition sgr (code : Z) : jsstring :=
  27%N :: lit "[" ++ decimal code ++ lit "m".

Definition chalk_style (open_code : Z) (level : nat) (s : jsstring)
  : jsstring :=
  match level with
  | O => s
  | S _ => sgr open_code ++ s ++ sgr 39
  end.

Definition chalk_yellow := chalk_style 33.
Definition chalk_green := chalk_style 32.
Definition chalk_blue := chalk_style 34.

(** The emoji of the three labels, as UTF-16 surrogate pairs: U+1F504,
    U+1F33F and U+1F9E9. *)
Definition emoji_revision : jsstring := [55357; 56580]%N.
Definition emoji_alternative : jsstring := [55356; 57151]%N.
Definition emoji_code_step : jsstring := [55358; 56809]%N.

(** Box-drawing characters, one code unit each. *)
Definition box_horizontal : code_unit := 9472%N.
Definition box_vertical : code_unit := 9474%N.
Definition box_top_left : code_unit := 9484%N.
Definition box_top_right : code_unit := 9488%N.
Definition box_tee_left : code_unit := 9500%N.
Definition box_tee_right : code_unit := 9508%N.
Definition box_bottom_left : code_unit := 9492%N.
Definition box_bottom_right : code_unit := 9496%N.
Definition newline : code_unit := 10%N.
Definition space : code_unit := 32%N.

(** ** The server *)

(** The two private fields of [CleanCodePlanningServer] and what the
    process has written with [console.error].  [branches] is an ordinary
    object used as a map: its own properties are kept in the order of
    their creation. *)
Record State : Type := {
  reflectionHistory : list CodePlanningData;
  branches : list (jsstring * list CodePlanningData);
  stderr : list jsstring
}.

Definition initial : State :=
  {| reflectionHistory := []; branches := []; stderr := [] |}.

(** A method body: it updates the state and completes normally or
    abruptly; what it did to the state before a [throw] stays done. *)
Definition M (A : Type) : Type := State -> State * completion A.

Definition ret {A} (a : A) : M A := fun st => (st, Return a).
Definition lift {A} (c : completion A) : M A := fun st => (st, c).
Definition bind {A B} (m : M A) (k : A -> M B) : M B :=
  fun st =>
    match m st with
    | (st', Return a) => k a st'
    | (st', Throw e) => (st', Throw e)
    end.

Declare Scope method_scope.
Delimit Scope method_scope with method.
Notation "x <- c ;; k" := (bind c (fun x => k))
  (at level 61, c at next level, right associativity) : method_scope.
Notation "c ;; k" := (bind c (fun _ => k))
  (at level 61, right associativity) : method_scope.

(** The names [Object.prototype] defines: read on [branches], which has
    [Object.prototype] as its prototype, each of them yields a function
    (the object itself for ["__proto__"]) when [branches] has no own
    property of that name. *)
Definition Object_prototype_names : list jsstring :=
  map lit
    ["constructor"; "__defineGetter__"; "__defineSetter__";
     "hasOwnProperty"; "__lookupGetter__"; "__lookupSetter__";
     "isPrototypeOf"; "propertyIsEnumerable"; "toString"; "valueOf";
     "__proto__"; "toLocaleString"]%string.

Definition inherited (key : jsstring) : bool :=
  existsb (jsstring_eqb key) Object_prototype_names.

Inductive slot : Type :=
| Own (steps : list CodePlanningData)
| FromPrototype
| Undefined.

Fixpoint lookup (b : list (jsstring * list CodePlanningData))
  (key : jsstring) : option (list CodePlanningData) :=
  match b with
  | [] => None
  | (k, steps) :: rest =>
      if jsstring_eqb k key then Some steps else lookup rest key
  end.

(** [this.branches[key]]. *)
Definition branches_get (b : list (jsstring * list CodePlanningData))
  (key : jsstring) : slot :=
  match lookup b key with
  | Some steps => Own steps
  | None => if inherited key then FromPrototype else Undefined
  end.

(** An array and a function are truthy, [undefined] is not. *)
Definition slot_truthy (s : slot) : bool :=
  match s with
  | Own _ | FromPrototype => true
  | Undefined => false
  end.

(** [this.branches[key] = steps]: the own property is overwritten where
    it stands, or created after the others. *)
Fixpoint branches_set (b : list (jsstring * list CodePlanningData))
  (key : jsstring) (steps : list CodePlanningData)
  : list (jsstring * list CodePlanningData) :=
  match b with
  | [] => [(key, steps)]
  | (k, old) :: rest =>
      if jsstring_eqb k key then (k, steps) :: rest
      else (k, old) :: branches_set rest key steps
  end.

Definition with_history (st : State) (h : list CodePlanningData) : State :=
  {| reflectionHistory := h; branches := branches st; stderr := stderr st |}.
Definition with_branches (st : State)
  (b : list (jsstring * list CodePlanningData)) : State :=
  {| reflectionHistory := reflectionHistory st; branches := b;
     stderr := stderr st |}.

(** The state after the [push] on the history, and after
    [console.error]. *)
Definition recorded (d : CodePlanningData) (st : State) : State :=
  with_history st (reflectionHistory st ++ [d]).

Definition emitted (line : jsstring) (st : State) : State :=
  {| reflectionHistory := reflectionHistory st; branches := branches st;
     stderr := stderr st ++ [line] |}.

(** [this.reflectionHistory.push(d)]. *)
Definition push_history (d : CodePlanningData) : M unit :=
  fun st => (recorded d st, Return tt).

(** [this.branches[key] = []]. *)
Definition create_branch (key : jsstring) : M unit :=
  fun st => (with_branches st (branches_set (branches st) key []), Return tt).

(** [this.branches[key].push(d)]: an array grows in place; what the
    prototype answers has no [push], and calling [undefined] throws. *)
Definition push_branch (key : jsstring) (d : CodePlanningData) : M unit :=
  fun st =>
    match branches_get (branches st) key with
    | Own steps =>
        (with_branches st (branches_set (branches st) key (steps ++ [d])),
         Return tt)
    | FromPrototype => (st, Throw (TypeError NotAFunction))
    | Undefined =>
        (st, Throw (TypeError (ReadPropertyOfNullish JUndefined (lit "push"))))
    end.

(** [console.error(line)]. *)
Definition console_error (line : jsstring) : M unit :=
  fun st => (emitted line st, Return tt).

(** *** The order of [Object.keys]

    The keys of an ordinary object come out with the array indices first,
    in ascending numeric order, and the other strings after them in the
    order of their creation. *)

Definition digit (c : code_unit) : option N :=
  if ((48 <=? c) && (c <=? 57))%N then Some (c - 48)%N else None.

Fixpoint digits (acc : N) (s : jsstring) : option N :=
  match s with
  | [] => Some acc
  | c :: rest =>
      match digit c with
      | Some d => digits (10 * acc + d)%N rest
      | None => None
      end
  end.

(** A canonical numeric string below 2^32 - 1. *)
Definition array_index (key : jsstring) : option N :=
  match key with
  | [] => None
  | [c] => digit c
  | c :: _ =>
      if (c =? 48)%N then None
      else match digits 0%N key with
           | Some n => if (n <? 2 ^ 32 - 1)%N then Some n else None
           | None => None
           end
  end.

Fixpoint insert_index (n : N) (key : jsstring) (l : list (N * jsstring))
  : list (N * jsstring) :=
  match l with
  | [] => [(n, key)]
  | (m, k) :: rest =>
      if (n <=? m)%N then (n, key) :: l
      else (m, k) :: insert_index n key rest
  end.

Fixpoint index_keys (keys : list jsstring) : list (N * jsstring) :=
  match keys with
  | [] => []
  | k :: rest =>
      match array_index k with
      | Some n => insert_index n k (index_keys rest)
      | None => index_keys rest
      end
  end.

Definition is_index (key : jsstring) : bool :=
  match array_index key with Some _ => true | None => false end.

Definition Object_keys (b : list (jsstring * list CodePlanningData))
  : list jsstring :=
  let keys := map fst b in
  map snd (index_keys keys) ++ filter (fun k => negb (is_index k)) keys.

(** *** The tool result *)

(** The text of a result is [JSON.stringify(value, null, space)]; the
    serialisation is the engine's and is kept symbolic, the object it is
    applied to is the payload. *)
Inductive json_text : Type :=
| JSON_stringify (value : JsValue) (space : nat).

Record content_item : Type := {
  type : jsstring;
  text : json_text
}.

Record tool_result : Type := {
  content : list content_item;
  isError : option bool
}.

Definition text_content (payload : JsValue) : content_item :=
  {| type := lit "text"; text := JSON_stringify payload 2 |}.

Definition success_payload (d : CodePlanningData) (st : State) : JsValue :=
  JObject
    [(lit "stepNumber", JNumber (stepNumber d));
     (lit "totalSteps", JNumber (totalSteps d));
     (lit "nextStepNeeded", JBool (nextStepNeeded d));
     (lit "branches", JArray (map JString (Object_keys (branches st))));
     (lit "reflectionHistoryLength",
      JNumber (of_Z (Z.of_nat (List.length (reflectionHistory st)))))].

Definition error_payload (message : jsstring) : JsValue :=
  JObject
    [(lit "error", JString message);
     (lit "status", JString (lit "failed"))].

Definition success_result (payload : JsValue) : tool_result :=
  {| content := [text_content payload]; isError := None |}.

Definition error_result (message : jsstring) : tool_result :=
  {| content := [text_content (error_payload message)];
     isError := Some true |}.

(** The [if]/[else if]/[else] of [formatCodeReflection]: the coloured
    prefix and the context. *)
Definition prefix_and_context (d : CodePlanningData)
  : completion (jsstring * jsstring) :=
  (if truthy (isRevision d) then
     revises <- ToString (revisesStep d) ;;
     Return (chalk_yellow level (emoji_revision ++ lit " Revision"),
             lit " (revising step " ++ revises ++ lit ")")
   else if truthy (branchFromStep d) then
     from <- ToString (branchFromStep d) ;;
     id <- ToString (branchId d) ;;
     Return (chalk_green level (emoji_alternative ++ lit " Alternative"),
             lit " (from step " ++ from ++ lit ", ID: " ++ id ++ lit ")")
   else
     Return (chalk_blue level (emoji_code_step ++ lit " Code Step"),
             []))%completion.

(** The constants [header] and [border] of [formatCodeReflection]. *)
Definition header_line (reflectionData : CodePlanningData)
  : completion jsstring :=
  (pc <- prefix_and_context reflectionData ;;
   Return (fst pc ++ [space]
           ++ Number_toString (stepNumber reflectionData) ++ lit "/"
           ++ Number_toString (totalSteps reflectionData)
           ++ snd pc))%completion.

Definition border_line (header codeReflection : jsstring) : jsstring :=
  repeat_unit box_horizontal
    (Nat.max (List.length header) (List.length codeReflection) + 4).

Definition formatCodeReflection (reflectionData : CodePlanningData)
  : completion jsstring :=
  (header <- header_line reflectionData ;;
   let border := border_line header (codeReflection reflectionData) in
   Return
     ([newline; box_top_left] ++ border ++ [box_top_right; newline]
      ++ [box_vertical; space] ++ header ++ [space; box_vertical; newline]
      ++ [box_tee_left] ++ border ++ [box_tee_right; newline]
      ++ [box_vertical; space]
      ++ padEnd (codeReflection reflectionData) (List.length border - 2)
      ++ [space; box_vertical; newline]
      ++ [box_bottom_left] ++ border ++ [box_bottom_right]))%completion.

(** [validatedInput.stepNumber > validatedInput.totalSteps] and the
    assignment it guards. *)
Definition adjust (d : CodePlanningData) : CodePlanningData :=
  if number_gt (stepNumber d) (totalSteps d)
  then set_totalSteps d (stepNumber d)
  else d.

(** The registration of a branch step.  The computed key
    [validatedInput.branchId] goes through [ToString]. *)
Definition register_branch (d : CodePlanningData) : M unit :=
  (if truthy (branchFromStep d) && truthy (branchId d) then
     key <- lift (ToString (branchId d)) ;;
     found <- (fun st => (st, Return (branches_get (branches st) key))) ;;
     (if negb (slot_truthy found) then create_branch key else ret tt) ;;
     push_branch key d
   else ret tt)%method.

(** The [try] block of [processCodePlanning]. *)
Definition processCodePlanning_try (input : JsValue) : M JsValue :=
  (validatedInput <- lift (validateCodePlanningData input) ;;
   let validatedInput := adjust validatedInput in
   push_history validatedInput ;;
   register_branch validatedInput ;;
   formattedReflection <- lift (formatCodeReflection validatedInput) ;;
   console_error formattedReflection ;;
   fun st => (st, Return (success_payload validatedInput st)))%method.

(** [processCodePlanning]: the [try] block and its [catch]. *)
Definition processCodePlanning (input : JsValue) (st : State)
  : State * tool_result :=
  match processCodePlanning_try input st with
  | (st', Return payload) => (st', success_result payload)
  | (st', Throw error) => (st', error_result (exn_message error))
  end.

(** A session: the calls of the dispatcher, one after the other. *)
Fixpoint run (inputs : list JsValue) (st : State) : State :=
  match inputs with
  | [] => st
  | input :: rest => run rest (fst (processCodePlanning input st))
  end.

End Engine.

(** ** Reading a result back *)

(** The object a result serialises, and one of its members. *)
Definition payload_of (r : tool_result) : option JsValue :=
  match content r with
  | [item] => match text item with JSON_stringify value _ => Some value end
  | _ => None
  end.

Definition returned (key : string) (r : tool_result) : option JsValue :=
  match payload_of r with
  | Some (JObject props) => own_property props (lit key)
  | _ => None
  end.

(** [input.key], with [undefined] where the read would throw. *)
Definition member (input : JsValue) (key : string) : JsValue :=
  match Get input (lit key) with
  | Return v => v
  | Throw _ => JUndefined
  end.

Definition nullish (v : JsValue) : bool :=
  match v with
  | JUndefined | JNull => true
  | _ => false
  end.

(** The values of the optional fields that the declared types of
    [CodePlanningData] allow for, and more: everything but arrays and
    objects. *)
Definition primitive (v : JsValue) : bool :=
  match v with
  | JArray _ | JObject _ => false
  | _ => true
  end.

(** ** The validation rules in the words of the specification

    Four checks in a fixed order; each names a field, says which values
    it refuses and carries the message of the refusal. *)
Record check : Type := {
  field : string;
  refuses : JsValue -> bool;
  message : jsstring
}.

Definition present_string (v : JsValue) : bool :=
  match v with JString (_ :: _) => true | _ => false end.

Definition present_number (v : JsValue) : bool :=
  match v with
  | JNumber (Infinity _) => true
  | JNumber (Finite q) => negb (Qeq_bool q 0)
  | _ => false
  end.

Definition is_boolean (v : JsValue) : bool :=
  match v with JBool _ => true | _ => false end.

Definition checks : list check :=
  [ {| field := "codeReflection"%string;
       refuses := fun v => negb (present_string v);
       message := msg_codeReflection |};
    {| field := "stepNumber"%string;
       refuses := fun v => negb (present_number v);
       message := msg_stepNumber |};
    {| field := "totalSteps"%string;
       refuses := fun v => negb (present_number v);
       message := msg_totalSteps |};
    {| field := "nextStepNeeded"%string;
       refuses := fun v => negb (is_boolean v);
       message := msg_nextStepNeeded |} ].

Definition first_failing_check (input : JsValue) : option check :=
  find (fun c => refuses c (member input (field c))) checks.

(** ** The header in the words of the specification

    The labels are the bare words ["Revision"], ["Alternative"] and
    ["Code Step"]; [isRevision] counts when it is [true]. *)
Definition claimed_header (other : Q -> jsstring) (d : CodePlanningData)
  : completion jsstring :=
  let counters :=
    Number_toString other (stepNumber d) ++ lit "/"
    ++ Number_toString other (totalSteps d) in
  match isRevision d with
  | JBool true =>
      cbind (ToString other (revisesStep d)) (fun revises =>
      Return (lit "Revision " ++ counters
              ++ lit " (revising step " ++ revises ++ lit ")"))
  | _ =>
      if truthy (branchFromStep d) then
        cbind (ToString other (branchFromStep d)) (fun from =>
        cbind (ToString other (branchId d)) (fun id =>
        Return (lit "Alternative " ++ counters
                ++ lit " (from step " ++ from
                ++ lit ", ID: " ++ id ++ lit ")")))
      else Return (lit "Code Step " ++ counters)
  end.

(** ** Sample requests *)

(** The examples print small integers only; the printer of the other
    doubles they are run with is never called. *)
Definition integers_only (_ : Q) : jsstring := [].

Definition request (fields : list (string * JsValue)) : JsValue :=
  JObject (map (fun p => (lit (fst p), snd p)) fields).

Definition design_module_layout : JsValue :=
  request [("codeReflection", JString (lit "Design module layout"));
           ("stepNumber", JNumber (of_Z 1));
           ("totalSteps", JNumber (of_Z 3));
           ("nextStepNeeded", JBool true)]%string.

Definition add_retry_logic : JsValue :=
  request [("codeReflection", JString (lit "Add retry logic"));
           ("stepNumber", JNumber (of_Z 2));
           ("totalSteps", JNumber (of_Z 3));
           ("nextStepNeeded", JBool true);
           ("branchFromStep", JNumber (of_Z 1));
           ("branchId", JString (lit "retry-strategy"))]%string.

Definition revisit_step_1 : JsValue :=
  request [("codeReflection", JString (lit "Revisit step 1"));
           ("stepNumber", JNumber (of_Z 2));
           ("totalSteps", JNumber (of_Z 1));
           ("nextStepNeeded", JBool true);
           ("isRevision", JBool true);
           ("revisesStep", JNumber (of_Z 1))]%string.

Definition revisit_step_1_validated : CodePlanningData :=
  {| codeReflection := lit "Revisit step 1";
     stepNumber := of_Z 2;
     totalSteps := of_Z 1;
     isRevision := JBool true;
     revisesStep := JNumber (of_Z 1);
     branchFromStep := JUndefined;
     branchId := JUndefined;
     needsMoreSteps := JUndefined;
     nextStepNeeded := true |}.

(** A branch named after a member of [Object.prototype]. *)
Definition branch_named_constructor : JsValue :=
  request [("codeReflection", JString (lit "Try a factory"));
           ("stepNumber", JNumber (of_Z 2));
           ("totalSteps", JNumber (of_Z 3));
           ("nextStepNeeded", JBool true);
           ("branchFromStep", JNumber (of_Z 1));
           ("branchId", JString (lit "constructor"))]%string.

Definition branch_named_constructor_validated : CodePlanningData :=
  {| codeReflection := lit "Try a factory";
     stepNumber := of_Z 2;
     totalSteps := of_Z 3;
     isRevision := JUndefined;
     revisesStep := JUndefined;
     branchFromStep := JNumber (of_Z 1);
     branchId := JString (lit "constructor");
     needsMoreSteps := JUndefined;
     nextStepNeeded := true |}.

(** A revision whose [revisesStep] is the JSON object
    [{"toString": 1}]. *)
Definition revision_of_an_object : JsValue :=
  request [("codeReflection", JString (lit "Revisit step 1"));
           ("stepNumber", JNumber (of_Z 2));
           ("totalSteps", JNumber (of_Z 2));
           ("nextStepNeeded", JBool true);
           ("isRevision", JBool true);
           ("revisesStep", request [("toString", JNumber (of_Z 1))]%string)]%string.

Definition revision_of_an_object_validated : CodePlanningData :=
  {| codeReflection := lit "Revisit step 1";
     stepNumber := of_Z 2;
     totalSteps := of_Z 2;
     isRevision := JBool true;
     revisesStep := request [("toString", JNumber (of_Z 1))]%string;
     branchFromStep := JUndefined;
     branchId := JUndefined;
     needsMoreSteps := JUndefined;
     nextStepNeeded := true |}.

Definition zero_stepNumber : JsValue :=
  request [("codeReflection", JString (lit "Design module layout"));
           ("stepNumber", JNumber (of_Z 0));
           ("totalSteps", JNumber (of_Z 3));
           ("nextStepNeeded", JBool true)]%string.

Definition absent_stepNumber : JsValue :=
  request [("codeReflection", JString (lit "Design module layout"));
           ("totalSteps", JNumber (of_Z 3));
           ("nextStepNeeded", JBool true)]%string.

Definition zero_totalSteps : JsValue :=
  request [("codeReflection", JString (lit "Design module layout"));
           ("stepNumber", JNumber (of_Z 1));
           ("totalSteps", JNumber (of_Z 0));
           ("nextStepNeeded", JBool true)]%string.

Definition empty_reflection : JsValue :=
  request [("codeReflection", JString []);
           ("stepNumber", JNumber (of_Z 1));
           ("totalSteps", JNumber (of_Z 3));
           ("nextStepNeeded", JBool true)]%string.

(** ** The request handler

    The handler registered for [CallToolRequestSchema].  The SDK hands it
    a request whose [params.name] is a string and whose
    [params.arguments] is an object or is missing. *)
Record CallToolRequest : Type := {
  name : jsstring;
  arguments : JsValue
}.

(** The answer to an unknown tool: its text is a plain string, not a
    serialised object. *)
Record plain_item : Type := {
  plain_type : jsstring;
  plain_text : jsstring
}.

Record plain_result : Type := {
  plain_content : list plain_item;
  plain_isError : option bool
}.

Inductive CallToolResult : Type :=
| Planned (result : tool_result)
| Plain (result : plain_result).

(** The object literal handed to [processCodePlanning]: its nine
    properties are read from the arguments, in the order of the source;
    the first read throws when there are no arguments. *)
Definition planning_input (args : JsValue) : completion JsValue :=
  (thought <- Get args (lit "thought") ;;
   thoughtNumber <- Get args (lit "thoughtNumber") ;;
   totalThoughts <- Get args (lit "totalThoughts") ;;
   nextThoughtNeeded <- Get args (lit "nextThoughtNeeded") ;;
   isRevision <- Get args (lit "isRevision") ;;
   revisesThought <- Get args (lit "revisesThought") ;;
   branchFromThought <- Get args (lit "branchFromThought") ;;
   branchId <- Get args (lit "branchId") ;;
   needsMoreThoughts <- Get args (lit "needsMoreThoughts") ;;
   Return (JObject [(lit "codeReflection", thought);
                    (lit "stepNumber", thoughtNumber);
                    (lit "totalSteps", totalThoughts);
                    (lit "nextStepNeeded", nextThoughtNeeded);
                    (lit "isRevision", isRevision);
                    (lit "revisesStep", revisesThought);
                    (lit "branchFromStep", branchFromThought);
                    (lit "branchId", branchId);
                    (lit "needsMoreSteps", needsMoreThoughts)]))%completion.

Definition unknown_tool (tool : jsstring) : plain_result :=
  {| plain_content :=
       [{| plain_type := lit "text";
           plain_text := lit "Unknown tool: " ++ tool |}];
     plain_isError := Some true |}.

Section Handler.

Variable Number_toString_other : Q -> jsstring.
Variable level : nat.

(** The handler.  It has no [try] of its own: what [planning_input]
    throws leaves it as an exception. *)
Definition call_tool_handler (request : CallToolRequest)
  : M CallToolResult :=
  if jsstring_eqb (name request) (lit "cleancode") then
    bind (lift (planning_input (arguments request))) (fun input st =>
      let (st', result) :=
        processCodePlanning Number_toString_other level input st in
      (st', Return (Planned result)))
  else ret (Plain (unknown_tool (name request))).

(** A session seen from the transport: the requests, one after the
    other. *)
Fixpoint serve (requests : list CallToolRequest) (st : State) : State :=
  match requests with
  | [] => st
  | request :: rest => serve rest (fst (call_tool_handler request st))
  end.

End Handler.

(** ** The advertised input schema

    [CLEAN_CODE_TOOL.inputSchema]: the type and the minimum of each
    property, and the required ones (the descriptions are left out). *)
Inductive json_type : Type :=
| TyString
| TyBoolean
| TyInteger.

Record property_schema : Type := {
  property : string;
  property_type : json_type;
  minimum : option Z
}.

Definition inputSchema_properties : list property_schema :=
  [ {| property := "thought"; property_type := TyString;
       minimum := None |};
    {| property := "nextThoughtNeeded"; property_type := TyBoolean;
       minimum := None |};
    {| property := "thoughtNumber"; property_type := TyInteger;
       minimum := Some 1 |};
    {| property := "totalThoughts"; property_type := TyInteger;
       minimum := Some 1 |};
    {| property := "isRevision"; property_type := TyBoolean;
       minimum := None |};
    {| property := "revisesThought"; property_type := TyInteger;
       minimum := Some 1 |};
    {| property := "branchFromThought"; property_type := TyInteger;
       minimum := Some 1 |};
    {| property := "branchId"; property_type := TyString;
       minimum := None |};
    {| property := "needsMoreThoughts"; property_type := TyBoolean;
       minimum := None |} ]%string.

Definition inputSchema_required : list string :=
  ["thought"; "nextThoughtNeeded"; "thoughtNumber"; "totalThoughts"]%string.

(** JSON Schema on a value: [type] ("integer" is a number without
    fractional part) and [minimum]. *)
Definition has_type (p : property_schema) (v : JsValue) : bool :=
  match property_type p, v with
  | TyString, JString _ => true
  | TyBoolean, JBool _ => true
  | TyInteger, JNumber (Finite q) =>
      is_integer q
      && match minimum p with
         | Some m => Qle_bool (inject_Z m) q
         | None => true
         end
  | _, _ => false
  end.

(** An object conforms when it has the required properties and each
    declared property it has is of its type. *)
Definition conforms (args : JsValue) : bool :=
  match args with
  | JObject props =>
      forallb (fun key =>
                 match own_property props (lit key) with
                 | Some _ => true
                 | None => false
                 end) inputSchema_required
      && forallb (fun p =>
                    match own_property props (lit (property p)) with
                    | Some v => has_type p v
                    | None => true
                    end) inputSchema_properties
  | _ => false
  end.

(** ** Vocabulary of the further properties *)

(** The steps a list of inputs leaves in the history. *)
Definition validated_steps (inputs : list JsValue) : list CodePlanningData :=
  flat_map (fun input =>
              match validateCodePlanningData input with
              | Return d => [adjust d]
              | Throw _ => []
              end) inputs.

Definition passes_validation (input : JsValue) : bool :=
  match validateCodePlanningData input with
  | Return _ => true
  | Throw _ => false
  end.

(** The key under which a step asks to be registered, if it asks and the
    key can be computed. *)
Definition branch_key (other : Q -> jsstring) (d : CodePlanningData)
  : option jsstring :=
  if truthy (branchFromStep d) && truthy (branchId d) then
    match ToString other (branchId d) with
    | Return key => Some key
    | Throw _ => None
    end
  else None.

Definition steps_of (b : list (jsstring * list CodePlanningData))
  (key : jsstring) : list CodePlanningData :=
  match lookup b key with
  | Some steps => steps
  | None => []
  end.

(** The steps of the branches are steps of the history, each under the
    key its own [branchId] converts to. *)
Definition accounted (other : Q -> jsstring) (st : State) : Prop :=
  forall key steps d,
    lookup (branches st) key = Some steps ->
    In d steps ->
    In d (reflectionHistory st) /\ branch_key other d = Some key.

(** A branch map in good order: no key twice, no key that
    [Object.prototype] answers for, no branch without a step. *)
Definition well_formed_branches
  (b : list (jsstring * list CodePlanningData)) : Prop :=
  NoDup (map fst b)
  /\ Forall (fun entry => inherited (fst entry) = false /\ snd entry <> []) b.

(** The numeric value of a key that is an array index. *)
Definition index_value (key : jsstring) : N :=
  match array_index key with
  | Some n => n
  | None => 0%N
  end.

(** The planning inputs of the requests that reach
    [processCodePlanning]. *)
Definition inputs_of (requests : list CallToolRequest) : list JsValue :=
  flat_map (fun request =>
              if jsstring_eqb (name request) (lit "cleancode") then
                match planning_input (arguments request) with
                | Return input => [input]
                | Throw _ => []
                end
              else []) requests.

(** The planning input built from arguments that can be read. *)
Definition renamed (args : JsValue) : JsValue :=
  JObject [(lit "codeReflection", member args "thought");
           (lit "stepNumber", member args "thoughtNumber");
           (lit "totalSteps", member args "totalThoughts");
           (lit "nextStepNeeded", member args "nextThoughtNeeded");
           (lit "isRevision", member args "isRevision");
           (lit "revisesStep", member args "revisesThought");
           (lit "branchFromStep", member args "branchFromThought");
           (lit "branchId", member args "branchId");
           (lit "needsMoreSteps", member args "needsMoreThoughts")].

(** The validation rules under the names of the arguments. *)
Definition argument_checks : list check :=
  [ {| field := "thought";
       refuses := fun v => negb (present_string v);
       message := msg_codeReflection |};
    {| field := "thoughtNumber";
       refuses := fun v => negb (present_number v);
       message := msg_stepNumber |};
    {| field := "totalThoughts";
       refuses := fun v => negb (present_number v);
       message := msg_totalSteps |};
    {| field := "nextThoughtNeeded";
       refuses := fun v => negb (is_boolean v);
       message := msg_nextStepNeeded |} ]%string.

Definition first_refused_argument (args : JsValue) : option check :=
  find (fun c => refuses c (member args (field c))) argument_checks.

Definition design_module_layout_validated : CodePlanningData :=
  {| codeReflection := lit "Design module layout";
     stepNumber := of_Z 1;
     totalSteps := of_Z 3;
     isRevision := JUndefined;
     revisesStep := JUndefined;
     branchFromStep := JUndefined;
     branchId := JUndefined;
     needsMoreSteps := JUndefined;
     nextStepNeeded := true |}.

Definition add_retry_logic_validated : CodePlanningData :=
  {| codeReflection := lit "Add retry logic";
     stepNumber := of_Z 2;
     totalSteps := of_Z 3;
     isRevision := JUndefined;
     revisesStep := JUndefined;
     branchFromStep := JNumber (of_Z 1);
     branchId := JString (lit "retry-strategy");
     needsMoreSteps := JUndefined;
     nextStepNeeded := true |}.

(** The block written for the revision of the third scenario, colour
    off. *)
Definition revisit_block : jsstring :=
  Eval vm_compute in
    match formatCodeReflection integers_only 0
            (adjust revisit_step_1_validated) with
    | Return block => block
    | Throw _ => []
    end.

(** Arguments passed under the names of the internal fields. *)
Definition internal_names_request : CallToolRequest :=
  {| name := lit "cleancode";
     arguments :=
       request [("codeReflection", JString (lit "Design module layout"));
                ("stepNumber", JNumber (of_Z 1));
                ("totalSteps", JNumber (of_Z 3));
                ("nextStepNeeded", JBool true)]%string |}.

(** Sample arguments. *)
Definition retry_arguments : JsValue :=
  request [("thought", JString (lit "Add retry logic"));
           ("nextThoughtNeeded", JBool true);
           ("thoughtNumber", JNumber (of_Z 2));
           ("totalThoughts", JNumber (of_Z 3));
           ("branchFromThought", JNumber (of_Z 1));
           ("branchId", JString (lit "retry-strategy"))]%string.

Definition empty_thought_arguments : JsValue :=
  request [("thought", JString []);
           ("nextThoughtNeeded", JBool true);
           ("thoughtNumber", JNumber (of_Z 1));
           ("totalThoughts", JNumber (of_Z 1))]%string.

(** ** What rendering converts

    The fields the header interpolates are those of the branch of the
    [if] that is taken. *)
Definition interpolated (d : CodePlanningData) : list JsValue :=
  if truthy (isRevision d) then [revisesStep d]
  else if truthy (branchFromStep d) then [branchFromStep d; branchId d]
  else [].

(** The values that have a string form: every value but an object with
    an own ["toString"], on its own or inside arrays. *)
Fixpoint converts (v : JsValue) : bool :=
  match v with
  | JArray items =>
      (fix all (l : list JsValue) : bool :=
         match l with
         | [] => true
         | x :: rest => converts x && all rest
         end) items
  | JObject props =>
      match own_property props (lit "toString") with
      | Some _ => false
      | None => true
      end
  | _ => true
  end.

(** A revision whose [branchId], which a revision does not render, is
    the JSON object [{"toString": 1}]. *)
Definition revision_with_odd_branchId : JsValue :=
  request [("codeReflection", JString (lit "Revisit step 1"));
           ("stepNumber", JNumber (of_Z 2));
           ("totalSteps", JNumber (of_Z 2));
           ("nextStepNeeded", JBool true);
           ("isRevision", JBool true);
           ("revisesStep", JArray [JNumber (of_Z 1); JNull]);
           ("branchId", request [("toString", JNumber (of_Z 1))]%string)
          ]%string.

Definition revision_with_odd_branchId_validated : CodePlanningData :=
  {| codeReflection := lit "Revisit step 1";
     stepNumber := of_Z 2;
     totalSteps := of_Z 2;
     isRevision := JBool true;
     revisesStep := JArray [JNumber (of_Z 1); JNull];
     branchFromStep := JUndefined;
     branchId := request [("toString", JNumber (of_Z 1))]%string;
     needsMoreSteps := JUndefined;
     nextStepNeeded := true |}.

(** Three branches, created in the order ["beta"], ["10"], ["9"]. *)
Definition branch_step (id : string) : JsValue :=
  request [("codeReflection", JString (lit "Try another way"));
           ("stepNumber", JNumber (of_Z 2));
           ("totalSteps", JNumber (of_Z 3));
           ("nextStepNeeded", JBool true);
           ("branchFromStep", JNumber (of_Z 1));
           ("branchId", JString (lit id))]%string.

(** * Properties *)

(** ** Numbers *)

Lemma number_lt_irrefl (a : number) : number_lt a a = false.
Proof.
  destruct a as [|neg|q]; simpl; auto.
  - now destruct neg.
  - assert (H : Qle_bool q q = true) by (apply Qle_bool_iff, Qle_refl).
    now rewrite H.
Qed.

Lemma number_truthy_not_NaN (a : number) :
  number_truthy a = true -> a <> NaN.
Proof. now destruct a. Qed.

(** On numbers that are not NaN, [<=] is the negation of [>]. *)
Lemma number_le_not_gt (a b : number) :
  a <> NaN -> b <> NaN -> number_le a b = negb (number_gt a b).
Proof.
  unfold number_gt, number_le.
  destruct a, b; intros Ha Hb; try congruence; reflexivity.
Qed.

Lemma number_ge_refl (a : number) : a <> NaN -> number_ge a a = true.
Proof.
  intros Ha. unfold number_ge.
  rewrite number_le_not_gt by assumption.
  unfold number_gt. now rewrite number_lt_irrefl.
Qed.

Lemma Qnum_zero (q : Q) : (Qnum q =? 0) = Qeq_bool q 0.
Proof.
  unfold Qeq_bool. simpl. now rewrite Z.mul_1_r.
Qed.

Lemma zero_is_falsy (q : Q) : q == 0 -> number_truthy (Finite q) = false.
Proof.
  intros H. simpl. rewrite Qnum_zero.
  apply Qeq_bool_iff in H. now rewrite H.
Qed.

(** ** Validation *)

Lemma Get_member (input : JsValue) (key : string) :
  nullish input = false -> Get input (lit key) = Return (member input key).
Proof.
  unfold member. destruct input; simpl; try discriminate; auto.
  now destruct (own_property props (lit key)).
Qed.

Lemma Get_nullish (input : JsValue) (key : jsstring) :
  nullish input = true ->
  Get input key = Throw (TypeError (ReadPropertyOfNullish input key)).
Proof. destruct input; simpl; try discriminate; auto. Qed.

Lemma validate_nullish (input : JsValue) :
  nullish input = true ->
  validateCodePlanningData input
  = Throw (TypeError (ReadPropertyOfNullish input (lit "codeReflection"))).
Proof.
  intros H. unfold validateCodePlanningData.
  now rewrite (Get_nullish _ _ H).
Qed.

(** The validator on an input that can be read: the four guards in their
    order, then the record. *)
Lemma validate_readable (input : JsValue) :
  nullish input = false ->
  validateCodePlanningData input =
  if missing_or_not TString (member input "codeReflection")
  then Throw (Error msg_codeReflection)
  else if missing_or_not TNumber (member input "stepNumber")
  then Throw (Error msg_stepNumber)
  else if missing_or_not TNumber (member input "totalSteps")
  then Throw (Error msg_totalSteps)
  else if negb (type_tag_eqb (typeof (member input "nextStepNeeded")) TBoolean)
  then Throw (Error msg_nextStepNeeded)
  else
    Return {| codeReflection := as_string (member input "codeReflection");
              stepNumber := as_number (member input "stepNumber");
              totalSteps := as_number (member input "totalSteps");
              nextStepNeeded := as_boolean (member input "nextStepNeeded");
              isRevision := member input "isRevision";
              revisesStep := member input "revisesStep";
              branchFromStep := member input "branchFromStep";
              branchId := member input "branchId";
              needsMoreSteps := member input "needsMoreSteps" |}.
Proof.
  intros H. unfold validateCodePlanningData.
  rewrite !(Get_member _ _ H). simpl cbind.
  repeat match goal with |- context [if ?b then _ else _] =>
    destruct b; [reflexivity|] end.
  reflexivity.
Qed.

Lemma missing_string (v : JsValue) :
  missing_or_not TString v = negb (present_string v).
Proof.
  unfold missing_or_not.
  destruct v as [| |b|n|[|c s]| |]; simpl; rewrite ?orb_true_r; reflexivity.
Qed.

Lemma missing_number (v : JsValue) :
  missing_or_not TNumber v = negb (present_number v).
Proof.
  unfold missing_or_not.
  destruct v as [| |b|[|neg|q]|s| |]; simpl; rewrite ?orb_true_r;
    try reflexivity.
  rewrite Qnum_zero. now destruct (Qeq_bool q 0).
Qed.

Lemma not_boolean (v : JsValue) :
  negb (type_tag_eqb (typeof v) TBoolean) = negb (is_boolean v).
Proof. now destruct v. Qed.

(** What a successful validation tells about the input. *)
Lemma validate_Return (input : JsValue) (d : CodePlanningData) :
  validateCodePlanningData input = Return d ->
  nullish input = false
  /\ member input "codeReflection" = JString (codeReflection d)
  /\ codeReflection d <> []
  /\ member input "stepNumber" = JNumber (stepNumber d)
  /\ number_truthy (stepNumber d) = true
  /\ member input "totalSteps" = JNumber (totalSteps d)
  /\ number_truthy (totalSteps d) = true
  /\ member input "nextStepNeeded" = JBool (nextStepNeeded d).
Proof.
  destruct (nullish input) eqn:Hn.
  - rewrite (validate_nullish _ Hn). discriminate.
  - rewrite (validate_readable _ Hn).
    rewrite missing_string, !missing_number, not_boolean.
    destruct (member input "codeReflection") as [| |?|?|[|c s]| |];
      try discriminate.
    destruct (member input "stepNumber") as [| |?|n|?| |]; try discriminate.
    destruct (present_number (JNumber n)) eqn:Hs; try discriminate.
    destruct (member input "totalSteps") as [| |?|t|?| |]; try discriminate.
    destruct (present_number (JNumber t)) eqn:Ht; try discriminate.
    destruct (member input "nextStepNeeded") as [| |b|?|?| |];
      try discriminate.
    simpl. intros [= <-]. simpl.
    pose proof (missing_number (JNumber n)) as Hn'.
    pose proof (missing_number (JNumber t)) as Ht'.
    rewrite Hs in Hn'. rewrite Ht in Ht'.
    unfold missing_or_not in Hn', Ht'. simpl in Hn', Ht'.
    rewrite orb_false_r in Hn', Ht'.
    apply negb_false_iff in Hn', Ht'.
    repeat split; auto. discriminate.
Qed.

(** The validator and the rules of the specification agree: the error
    thrown is the one of the first check that refuses its field. *)
Lemma validate_first_failure (input : JsValue) :
  nullish input = false ->
  match first_failing_check input with
  | Some c => validateCodePlanningData input = Throw (Error (message c))
  | None => exists d, validateCodePlanningData input = Return d
  end.
Proof.
  intros Hn. rewrite (validate_readable _ Hn).
  rewrite missing_string, !missing_number, not_boolean.
  unfold first_failing_check, checks. simpl find.
  destruct (present_string (member input "codeReflection")); simpl; auto.
  destruct (present_number (member input "stepNumber")); simpl; auto.
  destruct (present_number (member input "totalSteps")); simpl; auto.
  destruct (is_boolean (member input "nextStepNeeded")); simpl; auto.
  eexists. reflexivity.
Qed.

Lemma member_not_nullish (input : JsValue) (key : string) (v : JsValue) :
  member input key = v -> v <> JUndefined -> nullish input = false.
Proof.
  intros H Hv. destruct input; auto; now elim Hv.
Qed.

(** No primitive value makes [ToString] throw. *)
Lemma ToString_primitive (other : Q -> jsstring) (v : JsValue) :
  primitive v = true -> exists s, ToString other v = Return s.
Proof.
  destruct v as [| |[]|n|s|items|props]; simpl; intros H;
    try discriminate; eexists; reflexivity.
Qed.

(** ** The branch map *)

Lemma jsstring_eqb_eq (a b : jsstring) : jsstring_eqb a b = true <-> a = b.
Proof.
  unfold jsstring_eqb. destruct (list_eq_dec N.eq_dec a b); split;
    congruence.
Qed.

Lemma jsstring_eqb_refl (a : jsstring) : jsstring_eqb a a = true.
Proof. now apply jsstring_eqb_eq. Qed.

Lemma jsstring_eqb_neq (a b : jsstring) : a <> b -> jsstring_eqb a b = false.
Proof.
  intros H. destruct (jsstring_eqb a b) eqn:E; auto.
  now apply jsstring_eqb_eq in E.
Qed.

Lemma lookup_set_same (b : list (jsstring * list CodePlanningData))
  (key : jsstring) (steps : list CodePlanningData) :
  lookup (branches_set b key steps) key = Some steps.
Proof.
  induction b as [|[k old] rest IH]; simpl.
  - now rewrite jsstring_eqb_refl.
  - destruct (jsstring_eqb k key) eqn:E; simpl; now rewrite ?E.
Qed.

Lemma lookup_set_other (b : list (jsstring * list CodePlanningData))
  (key other : jsstring) (steps : list CodePlanningData) :
  other <> key ->
  lookup (branches_set b key steps) other = lookup b other.
Proof.
  intros Hne. induction b as [|[k old] rest IH]; simpl.
  - rewrite jsstring_eqb_neq; auto.
  - destruct (jsstring_eqb k key) eqn:E; simpl.
    + apply jsstring_eqb_eq in E. subst k.
      rewrite jsstring_eqb_neq; auto.
    + now rewrite IH.
Qed.

Lemma set_set (b : list (jsstring * list CodePlanningData))
  (key : jsstring) (v w : list CodePlanningData) :
  branches_set (branches_set b key v) key w = branches_set b key w.
Proof.
  induction b as [|[k old] rest IH]; simpl.
  - now rewrite jsstring_eqb_refl.
  - destruct (jsstring_eqb k key) eqn:E; simpl; rewrite E; auto.
    now rewrite IH.
Qed.

(** Overwriting keeps the keys in place; creating adds one at the end. *)
Lemma keys_set (b : list (jsstring * list CodePlanningData))
  (key : jsstring) (steps : list CodePlanningData) :
  map fst (branches_set b key steps) =
  match lookup b key with
  | Some _ => map fst b
  | None => map fst b ++ [key]
  end.
Proof.
  induction b as [|[k old] rest IH]; simpl; auto.
  destruct (jsstring_eqb k key) eqn:E; simpl; auto.
  rewrite IH. now destruct (lookup rest key).
Qed.

(** ** One call *)

Section Call.

Variable Number_toString_other : Q -> jsstring.
Variable level : nat.

Let process := processCodePlanning Number_toString_other level.
Let format := formatCodeReflection Number_toString_other level.
Let register := register_branch Number_toString_other.

(** A call whose input fails validation: the [catch] answers and the
    state is the one of before. *)
Lemma process_invalid (input : JsValue) (st : State) (e : exn) :
  validateCodePlanningData input = Throw e ->
  process input st = (st, error_result (exn_message e)).
Proof.
  intros H. unfold process, processCodePlanning, processCodePlanning_try.
  unfold bind, lift. now rewrite H.
Qed.

(** A call whose input passes validation, step by step. *)
Lemma process_valid (input : JsValue) (st : State) (d : CodePlanningData) :
  validateCodePlanningData input = Return d ->
  process input st =
  match register (adjust d) (recorded (adjust d) st) with
  | (st2, Throw e) => (st2, error_result (exn_message e))
  | (st2, Return _) =>
      match format (adjust d) with
      | Throw e => (st2, error_result (exn_message e))
      | Return line =>
          (emitted line st2,
           success_result (success_payload (adjust d) (emitted line st2)))
      end
  end.
Proof.
  intros H. unfold process, processCodePlanning, processCodePlanning_try.
  unfold bind at 1. unfold lift at 1. rewrite H.
  unfold bind at 1. unfold push_history at 1.
  unfold bind at 1. fold register.
  destruct (register (adjust d) (recorded (adjust d) st)) as [st2 [[]|e]];
    [|reflexivity].
  unfold bind at 1. unfold lift at 1. fold format.
  destruct (format (adjust d)) as [line|e]; [|reflexivity].
  reflexivity.
Qed.

(** The registration of a branch as one case analysis: no branch
    asked for, a key that cannot be computed, a branch that exists, a
    name the prototype answers for, a new branch. *)
Lemma register_branch_cases (d : CodePlanningData) (st : State) :
  register d st =
  if truthy (branchFromStep d) && truthy (branchId d) then
    match ToString Number_toString_other (branchId d) with
    | Throw e => (st, Throw e)
    | Return key =>
        match branches_get (branches st) key with
        | Own steps =>
            (with_branches st
               (branches_set (branches st) key (steps ++ [d])), Return tt)
        | FromPrototype => (st, Throw (TypeError NotAFunction))
        | Undefined =>
            (with_branches st (branches_set (branches st) key [d]),
             Return tt)
        end
    end
  else (st, Return tt).
Proof.
  unfold register, register_branch.
  destruct (truthy (branchFromStep d) && truthy (branchId d)); [|reflexivity].
  unfold bind at 1. unfold lift.
  destruct (ToString Number_toString_other (branchId d)) as [key|e];
    [|reflexivity].
  unfold bind at 1.
  destruct (branches_get (branches st) key) eqn:Hget; simpl negb; cbv iota.
  - unfold bind, ret, push_branch. now rewrite Hget.
  - unfold bind, ret, push_branch. now rewrite Hget.
  - unfold bind, create_branch, push_branch. simpl branches.
    unfold branches_get at 1. rewrite lookup_set_same.
    unfold with_branches. simpl. now rewrite set_set.
Qed.

(** A branch whose name the prototype does not know: the step is
    appended to the steps the branch had, none for a new branch. *)
Lemma register_branch_ordinary_key
  (d : CodePlanningData) (st : State) (key : jsstring) :
  truthy (branchFromStep d) = true ->
  branchId d = JString key ->
  key <> [] ->
  inherited key = false ->
  exists st',
    register d st = (st', Return tt)
    /\ lookup (branches st') key
       = Some (match lookup (branches st) key with
               | Some steps => steps
               | None => []
               end ++ [d])
    /\ forall other, other <> key ->
         lookup (branches st') other = lookup (branches st) other.
Proof.
  intros Hfrom Hid Hkey Hin.
  rewrite register_branch_cases, Hfrom, Hid. simpl ToString.
  assert (Ht : truthy (JString key) = true) by (now destruct key).
  rewrite Ht. simpl andb. cbv iota.
  unfold branches_get. rewrite Hin.
  destruct (lookup (branches st) key) as [steps|];
    eexists; (split; [reflexivity|]); simpl;
    split; auto using lookup_set_same, lookup_set_other.
Qed.

(** Registering a branch touches neither the history nor the diagnostic
    stream. *)
Lemma register_branch_frame (d : CodePlanningData) (st : State) :
  reflectionHistory (fst (register d st)) = reflectionHistory st
  /\ stderr (fst (register d st)) = stderr st.
Proof.
  rewrite register_branch_cases.
  destruct (truthy (branchFromStep d) && truthy (branchId d)); [|now simpl].
  destruct (ToString Number_toString_other (branchId d)) as [key|e];
    [|now simpl].
  destruct (branches_get (branches st) key); now simpl.
Qed.

(** The history after a call: as it was when validation fails, one step
    longer when it passes -- whatever happens afterwards. *)
Lemma process_history (input : JsValue) (st : State) :
  match validateCodePlanningData input with
  | Throw _ => reflectionHistory (fst (process input st)) = reflectionHistory st
  | Return d =>
      reflectionHistory (fst (process input st))
      = reflectionHistory st ++ [adjust d]
  end.
Proof.
  destruct (validateCodePlanningData input) as [d|e] eqn:Hv.
  - rewrite (process_valid _ _ _ Hv).
    pose proof (register_branch_frame (adjust d) (recorded (adjust d) st))
      as [Hh _].
    destruct (register (adjust d) (recorded (adjust d) st)) as [st2 [[]|e]];
      simpl in Hh.
    + destruct (format (adjust d)); simpl; now rewrite Hh.
    + simpl. now rewrite Hh.
  - now rewrite (process_invalid _ _ _ Hv).
Qed.

(** A call that answers without the error flag went through every step
    of the [try] block. *)
Lemma process_success (input : JsValue) (st : State) :
  isError (snd (process input st)) = None ->
  exists d st2 line,
    validateCodePlanningData input = Return d
    /\ register (adjust d) (recorded (adjust d) st) = (st2, Return tt)
    /\ format (adjust d) = Return line
    /\ process input st
       = (emitted line st2,
          success_result (success_payload (adjust d) (emitted line st2))).
Proof.
  intros Hok.
  destruct (validateCodePlanningData input) as [d|e] eqn:Hv.
  - rewrite (process_valid _ _ _ Hv) in Hok |- *.
    destruct (register (adjust d) (recorded (adjust d) st))
      as [st2 [[]|e]] eqn:Hr; [|discriminate].
    destruct (format (adjust d)) as [line|e] eqn:Hf; [|discriminate].
    exists d, st2, line. repeat split; assumption || reflexivity.
  - rewrite (process_invalid _ _ _ Hv) in Hok. discriminate.
Qed.

(** A property of the steps that validation and adjustment establish
    holds of the whole history, call after call. *)
Lemma run_history_invariant (P : CodePlanningData -> Prop) :
  (forall input d, validateCodePlanningData input = Return d -> P (adjust d)) ->
  forall inputs st,
    Forall P (reflectionHistory st) ->
    Forall P (reflectionHistory (run Number_toString_other level inputs st)).
Proof.
  intros HP. induction inputs as [|input rest IH]; intros st Hst; simpl; auto.
  apply IH. fold process.
  pose proof (process_history input st) as Hh.
  destruct (validateCodePlanningData input) as [d|e] eqn:Hv; rewrite Hh; auto.
  apply Forall_app. split; auto.
  constructor; [now apply (HP input)|constructor].
Qed.

End Call.

(** ** The keys of the branch map *)

Lemma In_insert_index (n : N) (key k : jsstring) (l : list (N * jsstring)) :
  In k (map snd (insert_index n key l)) <-> k = key \/ In k (map snd l).
Proof.
  induction l as [|[m k'] rest IH]; simpl.
  - intuition.
  - destruct (n <=? m)%N; simpl; intuition.
Qed.

Lemma In_index_keys (k : jsstring) (keys : list jsstring) :
  In k (map snd (index_keys keys)) <-> In k keys /\ is_index k = true.
Proof.
  unfold is_index. induction keys as [|key rest IH]; simpl.
  - intuition.
  - destruct (array_index key) as [n|] eqn:E.
    + rewrite In_insert_index, IH. split.
      * intros [->|[H1 H2]]; [rewrite E|]; auto.
      * intros [[->|H1] H2]; auto.
    + rewrite IH. split.
      * intros [H1 H2]; auto.
      * intros [[->|H1] H2]; auto. rewrite E in H2. discriminate.
Qed.

(** [Object.keys] lists the own keys, all of them and nothing else. *)
Lemma Object_keys_In (b : list (jsstring * list CodePlanningData))
  (k : jsstring) :
  In k (Object_keys b) <-> In k (map fst b).
Proof.
  unfold Object_keys. rewrite in_app_iff, In_index_keys, filter_In.
  destruct (is_index k); simpl; intuition discriminate.
Qed.

Lemma lookup_In (b : list (jsstring * list CodePlanningData))
  (k : jsstring) :
  In k (map fst b) <-> lookup b k <> None.
Proof.
  induction b as [|[k' steps] rest IH]; simpl.
  - intuition.
  - destruct (jsstring_eqb k' k) eqn:E.
    + apply jsstring_eqb_eq in E. intuition discriminate.
    + rewrite <- IH. split; auto.
      intros [->|H]; auto. now rewrite jsstring_eqb_refl in E.
Qed.

(** ** The claims of the specification *)

Section Claims.

Variable Number_toString_other : Q -> jsstring.
Variable level : nat.

Let process := processCodePlanning Number_toString_other level.

(** C1.  When the validated [stepNumber] of the input exceeds its
    [totalSteps], a call that succeeds returns [totalSteps] equal to that
    [stepNumber] and the step it stores carries the same value; when
    [stepNumber <= totalSteps], the returned [totalSteps] is the one of
    the input. *)
Theorem C1_totalSteps_follows_stepNumber
  (input : JsValue) (st : State) (s t : number) :
  member input "stepNumber" = JNumber s ->
  member input "totalSteps" = JNumber t ->
  isError (snd (process input st)) = None ->
  (number_gt s t = true ->
   returned "totalSteps" (snd (process input st)) = Some (JNumber s)
   /\ exists d,
        nth_error (reflectionHistory (fst (process input st)))
                  (List.length (reflectionHistory st)) = Some d
        /\ stepNumber d = s /\ totalSteps d = s)
  /\ (number_le s t = true ->
      returned "totalSteps" (snd (process input st)) = Some (JNumber t)).
Proof.
  intros Hs Ht Hok.
  destruct (process_success _ _ _ _ Hok) as (d & st2 & line & Hv & Hr & _ & Hp).
  fold process in Hp. rewrite Hp. simpl fst. simpl snd.
  destruct (validate_Return _ _ Hv)
    as (_ & _ & _ & Hs' & Hts & Ht' & Htt & _).
  rewrite Hs in Hs'. rewrite Ht in Ht'.
  injection Hs' as ->. injection Ht' as ->.
  pose proof (register_branch_frame Number_toString_other (adjust d)
                (recorded (adjust d) st)) as [Hh _].
  rewrite Hr in Hh. simpl in Hh.
  split.
  - intros Hgt. split.
    + unfold returned, adjust. rewrite Hgt. reflexivity.
    + exists (adjust d). simpl reflectionHistory. rewrite Hh.
      rewrite nth_error_app2, Nat.sub_diag by auto.
      unfold adjust. rewrite Hgt. simpl. auto.
  - intros Hle.
    rewrite number_le_not_gt in Hle by now apply number_truthy_not_NaN.
    apply negb_true_iff in Hle.
    unfold returned, adjust. rewrite Hle. reflexivity.
Qed.

(** C2.  A call whose input fails validation answers with the object
    [{ error: message, status: "failed" }], flagged as an error, and
    leaves the history, the branches and the rest of the state as they
    were. *)
Theorem C2_invalid_input_is_reported_and_harmless
  (input : JsValue) (st : State) (e : exn) :
  validateCodePlanningData input = Throw e ->
  process input st =
  (st,
   {| content :=
        [{| type := lit "text";
            text :=
              JSON_stringify
                (JObject [(lit "error", JString (exn_message e));
                          (lit "status", JString (lit "failed"))]) 2 |}];
      isError := Some true |}).
Proof.
  intros H. unfold process.
  now rewrite (process_invalid _ _ _ _ _ H).
Qed.

(** C5.  A call that succeeds appends exactly one step to the history,
    and its payload holds the [stepNumber], the [totalSteps] after
    adjustment, [nextStepNeeded], the keys of the branch map (each key
    once reached by [Object.keys], and nothing else) and the length of
    the history after the append. *)
Theorem C5_success_appends_one_step_and_reports
  (input : JsValue) (st : State) :
  isError (snd (process input st)) = None ->
  exists d,
    validateCodePlanningData input = Return d
    /\ reflectionHistory (fst (process input st))
       = reflectionHistory st ++ [adjust d]
    /\ List.length (reflectionHistory (fst (process input st)))
       = S (List.length (reflectionHistory st))
    /\ snd (process input st) =
       {| content :=
            [{| type := lit "text";
                text :=
                  JSON_stringify
                    (JObject
                       [(lit "stepNumber", JNumber (stepNumber d));
                        (lit "totalSteps", JNumber (totalSteps (adjust d)));
                        (lit "nextStepNeeded", JBool (nextStepNeeded d));
                        (lit "branches",
                         JArray
                           (map JString
                              (Object_keys
                                 (branches (fst (process input st))))));
                        (lit "reflectionHistoryLength",
                         JNumber
                           (of_Z
                              (Z.of_nat
                                 (S (List.length (reflectionHistory st))))))])
                    2 |}];
          isError := None |}
    /\ forall key,
         In key (Object_keys (branches (fst (process input st))))
         <-> lookup (branches (fst (process input st))) key <> None.
Proof.
  intros Hok.
  destruct (process_success _ _ _ _ Hok) as (d & st2 & line & Hv & Hr & _ & Hp).
  fold process in Hp.
  pose proof (process_history Number_toString_other level input st) as Hh.
  rewrite Hv in Hh. fold process in Hh.
  assert (Hlen : List.length (reflectionHistory (fst (process input st)))
                 = S (List.length (reflectionHistory st))).
  { rewrite Hh, length_app. simpl. lia. }
  exists d. repeat split; auto.
  - rewrite Hp in Hlen |- *. simpl fst in *. simpl snd.
    unfold success_result, success_payload, text_content.
    rewrite Hlen. unfold adjust.
    now destruct (number_gt (stepNumber d) (totalSteps d)).
  - intros H. rewrite Object_keys_In in H. now apply lookup_In.
  - intros H. rewrite Object_keys_In. now apply lookup_In.
Qed.

(** C8.  Whatever the calls made from the start of the process, every
    step of the history has a [totalSteps] that is [>=] its
    [stepNumber]. *)
Theorem C8_stored_totalSteps_covers_stepNumber (inputs : list JsValue) :
  Forall (fun d => number_ge (totalSteps d) (stepNumber d) = true)
         (reflectionHistory (run Number_toString_other level inputs initial)).
Proof.
  apply run_history_invariant; [|constructor].
  intros input d Hv.
  destruct (validate_Return _ _ Hv)
    as (_ & _ & _ & _ & Hs & _ & Ht & _).
  apply number_truthy_not_NaN in Hs, Ht.
  unfold adjust.
  destruct (number_gt (stepNumber d) (totalSteps d)) eqn:Hgt; simpl.
  - now apply number_ge_refl.
  - unfold number_ge. rewrite number_le_not_gt by assumption.
    now rewrite Hgt.
Qed.

(** C3.  A [stepNumber] or a [totalSteps] of numeric value 0 is refused
    as an absent one is: the call fails, the state is untouched, and the
    message is the one of the field -- ["Invalid stepNumber: must be a
    number"], ["Invalid totalSteps: must be a number"] -- as soon as the
    fields checked before it are in order. *)
Theorem C3_zero_is_refused_like_an_absent_field
  (input : JsValue) (st : State) (q : Q) :
  q == 0 ->
  nullish input = false ->
  (member input "stepNumber" = JNumber (Finite q)
   \/ member input "stepNumber" = JUndefined ->
   process input st =
   (st,
    error_result
      (if present_string (member input "codeReflection")
       then msg_stepNumber
       else msg_codeReflection)))
  /\ (member input "totalSteps" = JNumber (Finite q)
      \/ member input "totalSteps" = JUndefined ->
      process input st =
      (st,
       error_result
         (if present_string (member input "codeReflection")
          then if present_number (member input "stepNumber")
               then msg_totalSteps
               else msg_stepNumber
          else msg_codeReflection))).
Proof.
  intros Hq Hn.
  assert (Hz : present_number (JNumber (Finite q)) = false).
  { simpl. apply Qeq_bool_iff in Hq. now rewrite Hq. }
  pose proof (validate_first_failure input Hn) as Hv.
  unfold first_failing_check, checks in Hv. simpl find in Hv.
  split; intros Hf.
  - assert (Hp : present_number (member input "stepNumber") = false)
      by (destruct Hf as [-> | ->]; auto).
    rewrite Hp in Hv.
    destruct (present_string (member input "codeReflection")); simpl in Hv;
      unfold process; now rewrite (process_invalid _ _ _ _ _ Hv).
  - assert (Hp : present_number (member input "totalSteps") = false)
      by (destruct Hf as [-> | ->]; auto).
    rewrite Hp in Hv.
    destruct (present_string (member input "codeReflection")); simpl in Hv;
      [destruct (present_number (member input "stepNumber")); simpl in Hv|];
      unfold process; now rewrite (process_invalid _ _ _ _ _ Hv).
Qed.

(** C9.  An input whose reflection is the empty string is refused with
    ["Invalid codeReflection: must be a string"] and nothing changes;
    a step that passes validation has a non-empty reflection, and so has
    every step the history ever holds. *)
Theorem C9_reflection_is_never_empty (input : JsValue) (st : State) :
  member input "codeReflection" = JString [] ->
  process input st = (st, error_result msg_codeReflection)
  /\ (forall other d,
        validateCodePlanningData other = Return d -> codeReflection d <> [])
  /\ (forall inputs,
        Forall (fun d => codeReflection d <> [])
          (reflectionHistory
             (run Number_toString_other level inputs initial))).
Proof.
  intros Hc.
  assert (Hvalid : forall other d,
            validateCodePlanningData other = Return d ->
            codeReflection d <> []).
  { intros other d Hv. now destruct (validate_Return _ _ Hv) as (_ & _ & H & _). }
  split; [|split; auto].
  - assert (Hn : nullish input = false)
      by (apply (member_not_nullish _ _ _ Hc); discriminate).
    pose proof (validate_first_failure input Hn) as Hv.
    unfold first_failing_check, checks in Hv. simpl find in Hv.
    rewrite Hc in Hv. simpl in Hv.
    unfold process. now rewrite (process_invalid _ _ _ _ _ Hv).
  - intros inputs. apply run_history_invariant; [|constructor].
    intros other d Hv. unfold adjust.
    destruct (number_gt (stepNumber d) (totalSteps d)); simpl;
      now apply (Hvalid other).
Qed.

(** C10.  The message of a refused input is the one of the first check,
    in the order reflection, [stepNumber], [totalSteps],
    [nextStepNeeded], that refuses its field; an input that no check
    refuses passes validation. *)
Theorem C10_first_failing_check_decides_the_message
  (input : JsValue) (st : State) :
  nullish input = false ->
  map field checks
  = ["codeReflection"; "stepNumber"; "totalSteps"; "nextStepNeeded"]%string
  /\ match first_failing_check input with
     | Some c => process input st = (st, error_result (message c))
     | None => exists d, validateCodePlanningData input = Return d
     end.
Proof.
  intros Hn. split; [reflexivity|].
  pose proof (validate_first_failure input Hn) as Hv.
  destruct (first_failing_check input) as [c|]; auto.
  unfold process. now rewrite (process_invalid _ _ _ _ _ Hv).
Qed.

(** C6 (as the code has it).  The header of the framed block is
    [label ++ " " ++ stepNumber ++ "/" ++ totalSteps ++ suffix], where the
    label and the suffix go by this precedence: a truthy [isRevision]
    gives the emoji U+1F504 and ["Revision"] in [chalk]'s yellow with the
    suffix [" (revising step {revisesStep})"]; otherwise a truthy
    [branchFromStep] gives U+1F33F and ["Alternative"] in green with
    [" (from step {branchFromStep}, ID: {branchId})"]; otherwise U+1F9E9
    and ["Code Step"] in blue with no suffix.  The border is made of
    [max (header length) (reflection length) + 4] horizontal bars, the
    lengths counted in UTF-16 code units of the coloured header. *)
Theorem C6_header_and_border
  (d : CodePlanningData) (header : jsstring) :
  header_line Number_toString_other level d = Return header ->
  (exists label suffix,
     header = label ++ [space]
              ++ Number_toString Number_toString_other (stepNumber d)
              ++ lit "/"
              ++ Number_toString Number_toString_other (totalSteps d)
              ++ suffix
     /\ ((truthy (isRevision d) = true
          /\ label = chalk_yellow level (emoji_revision ++ lit " Revision")
          /\ exists revises,
               ToString Number_toString_other (revisesStep d) = Return revises
               /\ suffix = lit " (revising step " ++ revises ++ lit ")")
         \/ (truthy (isRevision d) = false
             /\ truthy (branchFromStep d) = true
             /\ label
                = chalk_green level (emoji_alternative ++ lit " Alternative")
             /\ exists from id,
                  ToString Number_toString_other (branchFromStep d)
                  = Return from
                  /\ ToString Number_toString_other (branchId d) = Return id
                  /\ suffix = lit " (from step " ++ from
                              ++ lit ", ID: " ++ id ++ lit ")")
         \/ (truthy (isRevision d) = false
             /\ truthy (branchFromStep d) = false
             /\ label = chalk_blue level (emoji_code_step ++ lit " Code Step")
             /\ suffix = [])))
  /\ exists border,
       border = repeat box_horizontal
                  (Nat.max (List.length header)
                           (List.length (codeReflection d)) + 4)
       /\ List.length border
          = (Nat.max (List.length header) (List.length (codeReflection d))
             + 4)%nat
       /\ formatCodeReflection Number_toString_other level d
          = Return
              ([newline; box_top_left] ++ border ++ [box_top_right; newline]
               ++ [box_vertical; space] ++ header
               ++ [space; box_vertical; newline]
               ++ [box_tee_left] ++ border ++ [box_tee_right; newline]
               ++ [box_vertical; space]
               ++ padEnd (codeReflection d) (List.length border - 2)
               ++ [space; box_vertical; newline]
               ++ [box_bottom_left] ++ border ++ [box_bottom_right]).
Proof.
  intros Hh. split.
  - unfold header_line, prefix_and_context in Hh.
    destruct (truthy (isRevision d)) eqn:Hrev.
    + destruct (ToString Number_toString_other (revisesStep d))
        as [revises|e] eqn:Hr; simpl in Hh; [|discriminate].
      injection Hh as <-. do 2 eexists. split; [reflexivity|].
      left. repeat split. now exists revises.
    + destruct (truthy (branchFromStep d)) eqn:Hfrom.
      * destruct (ToString Number_toString_other (branchFromStep d))
          as [from|e] eqn:Hf; simpl in Hh; [|discriminate].
        destruct (ToString Number_toString_other (branchId d))
          as [id|e] eqn:Hi; simpl in Hh; [|discriminate].
        injection Hh as <-. do 2 eexists. split; [reflexivity|].
        right. left. repeat split. now exists from, id.
      * simpl in Hh. injection Hh as <-. do 2 eexists.
        split; [reflexivity|]. right. right. now repeat split.
  - eexists. split; [reflexivity|]. split.
    + apply repeat_length.
    + unfold formatCodeReflection. rewrite Hh. reflexivity.
Qed.

(** C4 (the defect).  A branch named ["constructor"]: validation passes,
    the step enters the history, and the registration of the branch
    throws, because [branches["constructor"]] is the function the
    prototype supplies and has no [push].  The call ends as an error and
    [branches] has gained nothing. *)
Theorem C4_branch_named_after_a_prototype_member :
  validateCodePlanningData branch_named_constructor
  = Return branch_named_constructor_validated
  /\ processCodePlanning integers_only 0 branch_named_constructor initial
     = ({| reflectionHistory := [branch_named_constructor_validated];
           branches := [];
           stderr := [] |},
        error_result
          (lit "this.branches[validatedInput.branchId].push is not a function")).
Proof. split; reflexivity. Qed.

End Claims.

(** ** The scenarios of the specification *)

Example scenario_three_calls :
  let st1 := fst (processCodePlanning integers_only 0
                    design_module_layout initial) in
  let st2 := fst (processCodePlanning integers_only 0 add_retry_logic st1) in
  let r3 := snd (processCodePlanning integers_only 0 revisit_step_1 st2) in
  returned "reflectionHistoryLength"
    (snd (processCodePlanning integers_only 0 design_module_layout initial))
  = Some (JNumber (of_Z 1))
  /\ returned "branches"
       (snd (processCodePlanning integers_only 0 add_retry_logic st1))
     = Some (JArray [JString (lit "retry-strategy")])
  /\ returned "totalSteps" r3 = Some (JNumber (of_Z 2))
  /\ returned "reflectionHistoryLength" r3 = Some (JNumber (of_Z 3))
  /\ isError r3 = None.
Proof. cbv zeta. repeat split. Qed.

Example scenario_stepNumber_omitted :
  processCodePlanning integers_only 0 absent_stepNumber initial
  = (initial, error_result (lit "Invalid stepNumber: must be a number")).
Proof. reflexivity. Qed.

(** Two steps on the branch ["retry-strategy"] land in one sequence. *)
Example scenario_same_branch_twice :
  lookup
    (branches
       (run integers_only 0 [add_retry_logic; add_retry_logic] initial))
    (lit "retry-strategy")
  = Some [ {| codeReflection := lit "Add retry logic";
              stepNumber := of_Z 2; totalSteps := of_Z 3;
              isRevision := JUndefined; revisesStep := JUndefined;
              branchFromStep := JNumber (of_Z 1);
              branchId := JString (lit "retry-strategy");
              needsMoreSteps := JUndefined; nextStepNeeded := true |};
           {| codeReflection := lit "Add retry logic";
              stepNumber := of_Z 2; totalSteps := of_Z 3;
              isRevision := JUndefined; revisesStep := JUndefined;
              branchFromStep := JNumber (of_Z 1);
              branchId := JString (lit "retry-strategy");
              needsMoreSteps := JUndefined; nextStepNeeded := true |} ]
  /\ Object_keys
       (branches
          (run integers_only 0 [add_retry_logic; add_retry_logic] initial))
     = [lit "retry-strategy"].
Proof. split; reflexivity. Qed.

(** Array indices come first in [Object.keys], in numeric order. *)
Example Object_keys_order :
  Object_keys [(lit "b", []); (lit "10", []); (lit "a", []); (lit "9", []);
               (lit "01", [])]
  = [lit "9"; lit "10"; lit "b"; lit "a"; lit "01"].
Proof. reflexivity. Qed.

(** ** The claims at work on sample requests *)

Lemma C1_witness :
  returned "totalSteps"
    (snd (processCodePlanning integers_only 0 revisit_step_1 initial))
  = Some (JNumber (of_Z 2))
  /\ returned "totalSteps"
       (snd (processCodePlanning integers_only 0 design_module_layout initial))
     = Some (JNumber (of_Z 3)).
Proof.
  split.
  - exact (proj1 (proj1 (C1_totalSteps_follows_stepNumber integers_only 0
                           revisit_step_1 initial (of_Z 2) (of_Z 1)
                           eq_refl eq_refl eq_refl) eq_refl)).
  - exact (proj2 (C1_totalSteps_follows_stepNumber integers_only 0
                    design_module_layout initial (of_Z 1) (of_Z 3)
                    eq_refl eq_refl eq_refl) eq_refl).
Defined.

Lemma C2_witness :
  validateCodePlanningData absent_stepNumber = Throw (Error msg_stepNumber)
  /\ processCodePlanning integers_only 0 absent_stepNumber initial
     = (initial,
        {| content :=
             [{| type := lit "text";
                 text :=
                   JSON_stringify
                     (JObject [(lit "error", JString msg_stepNumber);
                               (lit "status", JString (lit "failed"))]) 2 |}];
           isError := Some true |}).
Proof.
  split; [reflexivity|].
  exact (C2_invalid_input_is_reported_and_harmless integers_only 0
           absent_stepNumber initial (Error msg_stepNumber) eq_refl).
Defined.

Lemma C3_witness :
  processCodePlanning integers_only 0 zero_stepNumber initial
  = (initial, error_result msg_stepNumber)
  /\ processCodePlanning integers_only 0 absent_stepNumber initial
     = (initial, error_result msg_stepNumber)
  /\ processCodePlanning integers_only 0 zero_totalSteps initial
     = (initial, error_result msg_totalSteps).
Proof.
  assert (Hz : 0 == 0) by reflexivity.
  split; [|split].
  - exact (proj1 (C3_zero_is_refused_like_an_absent_field integers_only 0
                    zero_stepNumber initial 0 Hz eq_refl)
             (or_introl eq_refl)).
  - exact (proj1 (C3_zero_is_refused_like_an_absent_field integers_only 0
                    absent_stepNumber initial 0 Hz eq_refl)
             (or_intror eq_refl)).
  - exact (proj2 (C3_zero_is_refused_like_an_absent_field integers_only 0
                    zero_totalSteps initial 0 Hz eq_refl)
             (or_introl eq_refl)).
Defined.

Lemma C5_witness :
  isError (snd (processCodePlanning integers_only 0 add_retry_logic initial))
  = None
  /\ List.length
       (reflectionHistory
          (fst (processCodePlanning integers_only 0 add_retry_logic initial)))
     = 1%nat.
Proof.
  split; [reflexivity|].
  destruct (C5_success_appends_one_step_and_reports integers_only 0
              add_retry_logic initial eq_refl) as (d & _ & _ & H & _).
  exact H.
Defined.

Lemma C6_witness :
  header_line integers_only 0 (adjust revisit_step_1_validated)
  = Return (emoji_revision ++ lit " Revision 2/2 (revising step 1)")
  /\ exists border,
       List.length border = 37%nat
       /\ formatCodeReflection integers_only 0
            (adjust revisit_step_1_validated)
          = Return
              ([newline; box_top_left] ++ border ++ [box_top_right; newline]
               ++ [box_vertical; space]
               ++ (emoji_revision ++ lit " Revision 2/2 (revising step 1)")
               ++ [space; box_vertical; newline]
               ++ [box_tee_left] ++ border ++ [box_tee_right; newline]
               ++ [box_vertical; space]
               ++ padEnd (lit "Revisit step 1") (List.length border - 2)
               ++ [space; box_vertical; newline]
               ++ [box_bottom_left] ++ border ++ [box_bottom_right]).
Proof.
  split; [reflexivity|].
  destruct (C6_header_and_border integers_only 0
              (adjust revisit_step_1_validated)
              (emoji_revision ++ lit " Revision 2/2 (revising step 1)")
              eq_refl) as (_ & border & _ & Hlen & Hfmt).
  exists border. split; [exact Hlen | exact Hfmt].
Defined.

Lemma C9_witness :
  processCodePlanning integers_only 0 empty_reflection initial
  = (initial, error_result msg_codeReflection).
Proof.
  exact (proj1 (C9_reflection_is_never_empty integers_only 0
                  empty_reflection initial eq_refl)).
Defined.

Lemma C10_witness :
  processCodePlanning integers_only 0 (request []) initial
  = (initial, error_result msg_codeReflection).
Proof.
  exact (proj2 (C10_first_failing_check_decides_the_message integers_only 0
                  (request []) initial eq_refl)).
Defined.

(** The revision of the third scenario, rendered without colour: the
    header opens with the emoji, which the header of the specification
    does not have, and the border is three bars longer than the
    specification's header would make it. *)
Lemma C6_counterexample :
  validateCodePlanningData revisit_step_1 = Return revisit_step_1_validated
  /\ claimed_header integers_only (adjust revisit_step_1_validated)
     = Return (lit "Revision 2/2 (revising step 1)")
  /\ header_line integers_only 0 (adjust revisit_step_1_validated)
     = Return (emoji_revision ++ lit " Revision 2/2 (revising step 1)")
  /\ header_line integers_only 0 (adjust revisit_step_1_validated)
     <> claimed_header integers_only (adjust revisit_step_1_validated)
  /\ List.length
       (border_line (emoji_revision ++ lit " Revision 2/2 (revising step 1)")
          (lit "Revisit step 1")) = 37%nat
  /\ (Nat.max (List.length (lit "Revision 2/2 (revising step 1)"))
              (List.length (lit "Revisit step 1")) + 4 = 34)%nat.
Proof.
  repeat split; try reflexivity. discriminate.
Qed.

(** A revision of the JSON object [{"toString": 1}]: the input passes
    validation, rendering throws, the call answers with an error and the
    step is in the history all the same. *)
Lemma C7_counterexample :
  validateCodePlanningData revision_of_an_object
  = Return revision_of_an_object_validated
  /\ formatCodeReflection integers_only 0
       (adjust revision_of_an_object_validated)
     = Throw (TypeError CannotConvertToPrimitive)
  /\ processCodePlanning integers_only 0 revision_of_an_object initial
     = ({| reflectionHistory := [revision_of_an_object_validated];
           branches := [];
           stderr := [] |},
        error_result (lit "Cannot convert object to primitive value")).
Proof. repeat split. Qed.

(** * Further properties of the code *)

Section Sessions.

Variable Number_toString_other : Q -> jsstring.
Variable level : nat.

Let process := processCodePlanning Number_toString_other level.
Let session := run Number_toString_other level.

(** The state after a call, for both outcomes of validation: the step
    joins the history, and the branch map is as it was or has the step
    added under the key of its branch. *)
Lemma process_state (input : JsValue) (st : State) :
  match validateCodePlanningData input with
  | Throw _ => fst (process input st) = st
  | Return d =>
      reflectionHistory (fst (process input st))
      = reflectionHistory st ++ [adjust d]
      /\ (branches (fst (process input st)) = branches st
          \/ exists key,
               branch_key Number_toString_other (adjust d) = Some key
               /\ branches_get (branches st) key <> FromPrototype
               /\ branches (fst (process input st))
                  = branches_set (branches st) key
                      (steps_of (branches st) key ++ [adjust d]))
  end.
Proof.
  pose proof (process_history Number_toString_other level input st) as Hh.
  destruct (validateCodePlanningData input) as [d|e] eqn:Hv.
  - split; [exact Hh|]. unfold process.
    rewrite (process_valid _ _ _ _ _ Hv), register_branch_cases.
    unfold branch_key, steps_of. simpl branches.
    destruct (truthy (branchFromStep (adjust d))
              && truthy (branchId (adjust d)));
      [|left; now destruct (formatCodeReflection _ _ (adjust d))].
    destruct (ToString Number_toString_other (branchId (adjust d)))
      as [key|e]; [|now left].
    unfold branches_get.
    destruct (lookup (branches st) key) as [steps|] eqn:Hl;
      [|destruct (inherited key) eqn:Hi; [now left|]];
      right; exists key; rewrite Hl, ?Hi;
      (split; [reflexivity|]); (split; [discriminate|]);
      now destruct (formatCodeReflection _ _ (adjust d)).
  - unfold process. now rewrite (process_invalid _ _ _ _ _ Hv).
Qed.

(** An invariant of single calls is an invariant of sessions. *)
Lemma run_preserves (I : State -> Prop) :
  (forall input st, I st -> I (fst (process input st))) ->
  forall inputs st, I st -> I (session inputs st).
Proof.
  intros Hstep. induction inputs as [|input rest IH]; intros st Hst; simpl;
    auto.
Qed.

Lemma run_app (first second : list JsValue) (st : State) :
  session (first ++ second) st = session second (session first st).
Proof.
  revert st. induction first as [|input rest IH]; intros st; simpl; auto.
Qed.

Lemma run_history_app (inputs : list JsValue) (st : State) :
  reflectionHistory (session inputs st)
  = reflectionHistory st ++ validated_steps inputs.
Proof.
  revert st. induction inputs as [|input rest IH]; intros st; simpl.
  - now rewrite app_nil_r.
  - unfold session in IH. rewrite IH.
    pose proof (process_history Number_toString_other level input st) as Hh.
    destruct (validateCodePlanningData input) as [d|e]; rewrite Hh.
    + now rewrite <- app_assoc.
    + reflexivity.
Qed.

(** X1.  The history is a function of the inputs alone: after a session
    started on a fresh server it is the list of the validated and
    adjusted steps, in the order of the calls -- whether or not the calls
    went on to succeed -- and a session continued with more calls keeps
    what it had and appends. *)
Theorem history_is_the_validated_steps (inputs more : list JsValue) :
  reflectionHistory (session inputs initial) = validated_steps inputs
  /\ reflectionHistory (session (inputs ++ more) initial)
     = reflectionHistory (session inputs initial) ++ validated_steps more.
Proof.
  split.
  - now rewrite run_history_app.
  - now rewrite run_app, run_history_app.
Qed.

(** X2.  Inputs that fail validation leave no trace in a session: the
    final state is the one reached without them. *)
Theorem refused_inputs_are_no_ops (inputs : list JsValue) (st : State) :
  session inputs st = session (filter passes_validation inputs) st.
Proof.
  revert st. induction inputs as [|input rest IH]; intros st; simpl; auto.
  unfold passes_validation at 1.
  destruct (validateCodePlanningData input) as [d|e] eqn:Hv; simpl.
  - apply IH.
  - fold process. unfold process.
    rewrite (process_invalid _ _ _ _ _ Hv). apply IH.
Qed.

(** X3.  A call leaves the state as it found it exactly when validation
    fails: once the input is valid the server is changed, even if the
    call then ends with an error result. *)
Theorem state_unchanged_iff_validation_fails (input : JsValue) (st : State) :
  fst (process input st) = st
  <-> exists e, validateCodePlanningData input = Throw e.
Proof.
  pose proof (process_state input st) as H.
  destruct (validateCodePlanningData input) as [d|e] eqn:Hv; split.
  - intros Heq. destruct H as [Hh _]. rewrite Heq in Hh.
    apply (f_equal (@List.length _)) in Hh. rewrite length_app in Hh.
    simpl in Hh. lia.
  - intros [e He]. discriminate.
  - intros _. now exists e.
  - intros _. exact H.
Qed.

(** X4.  The diagnostic stream gets one framed block -- the rendering of
    the adjusted step -- from a call that succeeds, and nothing from a
    call that answers with an error. *)
Theorem one_block_per_successful_call (input : JsValue) (st : State) :
  match isError (snd (process input st)) with
  | None =>
      exists d line,
        validateCodePlanningData input = Return d
        /\ formatCodeReflection Number_toString_other level (adjust d)
           = Return line
        /\ stderr (fst (process input st)) = stderr st ++ [line]
  | Some flag =>
      flag = true /\ stderr (fst (process input st)) = stderr st
  end.
Proof.
  destruct (validateCodePlanningData input) as [d|e] eqn:Hv.
  - unfold process. rewrite (process_valid _ _ _ _ _ Hv).
    pose proof (register_branch_frame Number_toString_other (adjust d)
                  (recorded (adjust d) st)) as [_ He].
    destruct (register_branch Number_toString_other (adjust d)
                (recorded (adjust d) st)) as [st2 [[]|e]]; simpl in He.
    + destruct (formatCodeReflection Number_toString_other level (adjust d))
        as [line|e] eqn:Hf; simpl.
      * exists d, line. rewrite He. auto.
      * auto.
    + simpl. auto.
  - unfold process. rewrite (process_invalid _ _ _ _ _ Hv). simpl. auto.
Qed.

(** X5.  The [reflectionHistoryLength] a successful call reports counts
    every input of the session that passed validation, this one
    included, and so also the steps of calls that ended with an error
    after validation. *)
Theorem reported_length_counts_validated_inputs
  (inputs : list JsValue) (input : JsValue) :
  isError (snd (process input (session inputs initial))) = None ->
  returned "reflectionHistoryLength"
    (snd (process input (session inputs initial)))
  = Some (JNumber
            (of_Z (Z.of_nat
                     (S (List.length
                           (filter passes_validation inputs)))))).
Proof.
  intros Hok.
  destruct (process_success _ _ _ _ Hok)
    as (d & st2 & line & Hv & Hr & _ & Hp).
  fold process session in Hp. rewrite Hp. simpl snd.
  pose proof (register_branch_frame Number_toString_other (adjust d)
                (recorded (adjust d) (session inputs initial))) as [Hh _].
  rewrite Hr in Hh. simpl in Hh.
  unfold returned, success_result, success_payload. simpl.
  rewrite Hh, run_history_app, length_app. simpl.
  replace (List.length (validated_steps inputs))
    with (List.length (filter passes_validation inputs)).
  - now rewrite Nat.add_1_r.
  - clear. unfold validated_steps, passes_validation.
    induction inputs as [|i rest IH]; simpl; auto.
    destruct (validateCodePlanningData i); simpl; now rewrite IH.
Qed.

End Sessions.

(** ** The branch map over a session *)

Lemma Forall_branches_set
  (P : jsstring * list CodePlanningData -> Prop)
  (b : list (jsstring * list CodePlanningData))
  (key : jsstring) (steps : list CodePlanningData) :
  Forall P b -> P (key, steps) -> Forall P (branches_set b key steps).
Proof.
  intros Hb Hnew. induction Hb as [|[k old] rest Hk Hrest IH]; simpl.
  - now constructor.
  - destruct (jsstring_eqb k key) eqn:E.
    + apply jsstring_eqb_eq in E. subst k. now constructor.
    + now constructor.
Qed.

Lemma lookup_Some_In (b : list (jsstring * list CodePlanningData))
  (key : jsstring) (steps : list CodePlanningData) :
  lookup b key = Some steps -> In (key, steps) b.
Proof.
  induction b as [|[k old] rest IH]; simpl; [discriminate|].
  destruct (jsstring_eqb k key) eqn:E.
  - apply jsstring_eqb_eq in E. intros [= ->]. subst. now left.
  - auto.
Qed.

Lemma well_formed_set (b : list (jsstring * list CodePlanningData))
  (key : jsstring) (steps : list CodePlanningData) :
  well_formed_branches b ->
  branches_get b key <> FromPrototype ->
  steps <> [] ->
  well_formed_branches (branches_set b key steps).
Proof.
  intros [Hnd Hall] Hget Hne. split.
  - rewrite keys_set. destruct (lookup b key) eqn:Hl; auto.
    apply NoDup_app; auto.
    + repeat constructor. intros [].
    + intros k Hin [<-|[]]. apply lookup_In in Hin. congruence.
  - apply Forall_branches_set; auto. simpl. split; auto.
    unfold branches_get in Hget.
    destruct (lookup b key) as [old|] eqn:Hl.
    + apply lookup_Some_In in Hl. rewrite Forall_forall in Hall.
      now destruct (Hall _ Hl).
    + destruct (inherited key); congruence.
Qed.

Section Branches.

Variable Number_toString_other : Q -> jsstring.
Variable level : nat.

Let process := processCodePlanning Number_toString_other level.
Let session := run Number_toString_other level.
Let key_of := branch_key Number_toString_other.

Lemma well_formed_call (input : JsValue) (st : State) :
  well_formed_branches (branches st) ->
  well_formed_branches (branches (fst (process input st))).
Proof.
  intros Hwf.
  pose proof (process_state Number_toString_other level input st) as H.
  fold process in H.
  destruct (validateCodePlanningData input) as [d|e].
  - destruct H as [_ [-> | (key & _ & Hget & ->)]]; auto.
    apply well_formed_set; auto. now destruct (steps_of (branches st) key).
  - now rewrite H.
Qed.

Lemma well_formed_session (inputs : list JsValue) (st : State) :
  well_formed_branches (branches st) ->
  well_formed_branches (branches (session inputs st)).
Proof.
  intros H.
  apply (run_preserves Number_toString_other level
           (fun st => well_formed_branches (branches st))); auto.
  intros input st' Hst'. now apply well_formed_call.
Qed.

Lemma well_formed_initial : well_formed_branches (branches initial).
Proof. split; constructor. Qed.

(** X6.  Whatever the calls, the branch map of the server has no key
    twice, never has one of the names of [Object.prototype] as a key of
    its own, and holds no empty branch. *)
Theorem branch_map_stays_well_formed (inputs : list JsValue) :
  NoDup (map fst (branches (session inputs initial)))
  /\ Forall (fun entry => inherited (fst entry) = false /\ snd entry <> [])
       (branches (session inputs initial)).
Proof.
  exact (well_formed_session inputs initial well_formed_initial).
Qed.

Lemma accounted_call (input : JsValue) (st : State) :
  accounted Number_toString_other st ->
  accounted Number_toString_other (fst (process input st)).
Proof.
  intros Hst.
  pose proof (process_state Number_toString_other level input st) as H.
  fold process in H.
  destruct (validateCodePlanningData input) as [d0|e]; [|now rewrite H].
  destruct H as [Hh Hb]. intros key steps d Hl Hin. rewrite Hh.
  destruct Hb as [Hb | (key0 & Hkey & _ & Hb)]; rewrite Hb in Hl.
  - destruct (Hst _ _ _ Hl Hin). split; auto. apply in_or_app. now left.
  - destruct (list_eq_dec N.eq_dec key key0) as [->|Hne].
    + rewrite lookup_set_same in Hl. injection Hl as <-.
      apply in_app_or in Hin. destruct Hin as [Hin|[<-|[]]].
      * unfold steps_of in Hin.
        destruct (lookup (branches st) key0) as [old|] eqn:Hold; [|easy].
        destruct (Hst _ _ _ Hold Hin). split; auto.
        apply in_or_app. now left.
      * split; auto. apply in_or_app. right. now left.
    + rewrite lookup_set_other in Hl by assumption.
      destruct (Hst _ _ _ Hl Hin). split; auto. apply in_or_app. now left.
Qed.

Lemma accounted_session (inputs : list JsValue) :
  accounted Number_toString_other (session inputs initial).
Proof.
  apply (run_preserves Number_toString_other level
           (accounted Number_toString_other)).
  - intros input st. apply accounted_call.
  - intros key steps d Hl. discriminate.
Qed.

(** X7.  Every step found in a branch is also in the history, it asked
    for the branch (both [branchFromStep] and [branchId] truthy) and its
    [branchId] converts to the key of the branch; so no step is in two
    branches. *)
Theorem branch_steps_are_history_steps
  (inputs : list JsValue) (key : jsstring)
  (steps : list CodePlanningData) (d : CodePlanningData) :
  lookup (branches (session inputs initial)) key = Some steps ->
  In d steps ->
  In d (reflectionHistory (session inputs initial))
  /\ truthy (branchFromStep d) = true
  /\ truthy (branchId d) = true
  /\ ToString Number_toString_other (branchId d) = Return key
  /\ forall other others,
       lookup (branches (session inputs initial)) other = Some others ->
       In d others -> other = key.
Proof.
  intros Hl Hin.
  destruct (accounted_session inputs _ _ _ Hl Hin) as [Hhist Hkey].
  split; auto.
  assert (Hk := Hkey). unfold key_of, branch_key in Hk.
  destruct (truthy (branchFromStep d)); [|discriminate].
  destruct (truthy (branchId d)); [|discriminate]. simpl in Hk.
  destruct (ToString Number_toString_other (branchId d)) as [k|e];
    [|discriminate].
  injection Hk as ->. repeat split; auto.
  intros other others Hl' Hin'.
  destruct (accounted_session inputs _ _ _ Hl' Hin') as [_ Hkey'].
  congruence.
Qed.

(** X8.  A branch only grows: the steps it has stay, in their order, at
    the front of what it has after any further calls, and what is added
    are steps that asked for this branch. *)
Theorem branches_only_grow
  (inputs : list JsValue) (st : State) (key : jsstring)
  (steps : list CodePlanningData) :
  lookup (branches st) key = Some steps ->
  exists added,
    lookup (branches (session inputs st)) key = Some (steps ++ added)
    /\ Forall (fun d => key_of d = Some key) added.
Proof.
  revert st steps. induction inputs as [|input rest IH]; intros st steps Hl.
  - exists []. rewrite app_nil_r. split; [exact Hl | constructor].
  - simpl. fold process.
    pose proof (process_state Number_toString_other level input st) as H.
    fold process in H.
    destruct (validateCodePlanningData input) as [d|e].
    + destruct H as [_ [Hb | (key0 & Hkey & _ & Hb)]].
      * rewrite <- Hb in Hl. now apply IH.
      * destruct (list_eq_dec N.eq_dec key key0) as [->|Hne].
        -- assert (Hl' : lookup (branches (fst (process input st))) key0
                         = Some (steps ++ [adjust d])).
           { rewrite Hb, lookup_set_same. unfold steps_of. now rewrite Hl. }
           destruct (IH _ _ Hl') as (added & Hadd & Hall).
           exists (adjust d :: added). rewrite Hadd, <- app_assoc.
           split; [reflexivity|]. now constructor.
        -- assert (Hl' : lookup (branches (fst (process input st))) key
                         = Some steps).
           { now rewrite Hb, lookup_set_other. }
           now apply IH.
    + rewrite H. now apply IH.
Qed.

End Branches.

(** ** The reported branch identifiers *)

Lemma Permutation_insert_index (n : N) (key : jsstring)
  (l : list (N * jsstring)) :
  Permutation (map snd (insert_index n key l)) (key :: map snd l).
Proof.
  induction l as [|[m k] rest IH]; simpl; auto.
  destruct (n <=? m)%N; simpl; auto.
  rewrite IH. apply perm_swap.
Qed.

Lemma Object_keys_Permutation (b : list (jsstring * list CodePlanningData)) :
  Permutation (Object_keys b) (map fst b).
Proof.
  unfold Object_keys, is_index.
  induction (map fst b) as [|key rest IH]; simpl; auto.
  destruct (array_index key) as [n|]; simpl.
  - rewrite Permutation_insert_index. simpl. now constructor.
  - rewrite <- Permutation_middle. now constructor.
Qed.

Lemma insert_index_tagged (n : N) (key : jsstring) (l : list (N * jsstring)) :
  array_index key = Some n ->
  Forall (fun p => array_index (snd p) = Some (fst p)) l ->
  Forall (fun p => array_index (snd p) = Some (fst p)) (insert_index n key l).
Proof.
  intros Hk Hl. induction Hl as [|[m k] rest Hm Hrest IH]; simpl.
  - now repeat constructor.
  - destruct (n <=? m)%N; repeat constructor; auto.
Qed.

Lemma index_keys_tagged (keys : list jsstring) :
  Forall (fun p => array_index (snd p) = Some (fst p)) (index_keys keys).
Proof.
  induction keys as [|key rest IH]; simpl; [constructor|].
  destruct (array_index key) as [n|] eqn:E; auto.
  now apply insert_index_tagged.
Qed.

Lemma insert_index_sorted (n : N) (key : jsstring) (l : list (N * jsstring)) :
  StronglySorted (fun p q => (fst p <= fst q)%N) l ->
  StronglySorted (fun p q => (fst p <= fst q)%N) (insert_index n key l).
Proof.
  intros Hl. induction Hl as [|[m k] rest Hrest IH Hall]; simpl.
  - repeat constructor.
  - destruct (n <=? m)%N eqn:E.
    + apply N.leb_le in E. constructor; [now constructor|].
      constructor; auto. simpl.
      rewrite Forall_forall in Hall |- *. intros p Hp.
      specialize (Hall p Hp). simpl in Hall. lia.
    + apply N.leb_gt in E. constructor; auto.
      rewrite Forall_forall in Hall |- *. intros [m' k'] Hp.
      simpl.
      assert (Hcase : (m', k') = (n, key) \/ In (m', k') rest).
      { clear -Hp. induction rest as [|[a c] rest IH]; simpl in Hp.
        - destruct Hp as [Hp|[]]; auto.
        - destruct (n <=? a)%N; simpl in Hp.
          + destruct Hp as [Hp|Hp]; auto.
          + destruct Hp as [Hp|Hp]; [right; now left|].
            destruct (IH Hp); auto. right. now right. }
      destruct Hcase as [[= -> ->]|Hin']; [lia|].
      specialize (Hall _ Hin'). simpl in Hall. lia.
Qed.

Lemma index_keys_sorted (keys : list jsstring) :
  StronglySorted (fun p q => (fst p <= fst q)%N) (index_keys keys).
Proof.
  induction keys as [|key rest IH]; simpl; [constructor|].
  destruct (array_index key); auto. now apply insert_index_sorted.
Qed.

Lemma sorted_by_index_value (l : list (N * jsstring)) :
  Forall (fun p => array_index (snd p) = Some (fst p)) l ->
  StronglySorted (fun p q => (fst p <= fst q)%N) l ->
  StronglySorted (fun a c => (index_value a <= index_value c)%N) (map snd l).
Proof.
  intros Htag Hs. induction Hs as [|p rest Hrest IH Hall]; simpl;
    [constructor|].
  inversion Htag as [|? ? Hp Htag']; subst.
  constructor; auto.
  rewrite Forall_forall in Hall, Htag' |- *.
  intros k Hk. apply in_map_iff in Hk. destruct Hk as (q & <- & Hq).
  unfold index_value. rewrite Hp, (Htag' _ Hq). now apply Hall.
Qed.

Lemma index_keys_Permutation (keys : list jsstring) :
  Permutation (map snd (index_keys keys)) (filter is_index keys).
Proof.
  unfold is_index. induction keys as [|key rest IH]; simpl; auto.
  destruct (array_index key) as [n|]; auto.
  rewrite Permutation_insert_index. now constructor.
Qed.

(** In a list made of elements with a property followed by elements
    without it, no element without it comes before one with it. *)
Lemma indices_before_names (indices names before : list jsstring)
  (name : jsstring) (between : list jsstring) (index : jsstring)
  (after : list jsstring) :
  Forall (fun key => is_index key = true) indices ->
  Forall (fun key => is_index key = false) names ->
  indices ++ names = before ++ name :: between ++ index :: after ->
  is_index name = false ->
  is_index index = true ->
  False.
Proof.
  intros Hi Hn Heq Hname Hindex.
  rewrite Forall_forall in Hi, Hn.
  assert (Hin : In index names).
  { apply app_eq_app in Heq.
    destruct Heq as (l & [[-> Hrest] | [-> ->]]).
    - destruct l as [|x l]; simpl in Hrest.
      + rewrite <- Hrest. right. apply in_or_app. right. now left.
      + injection Hrest as <- _.
        assert (Hx : is_index name = true)
          by (apply Hi, in_or_app; right; now left).
        congruence.
    - apply in_or_app. right. right. apply in_or_app. right. now left. }
  specialize (Hn _ Hin). congruence.
Qed.

Section Keys.

Variable Number_toString_other : Q -> jsstring.
Variable level : nat.

(** X9.  The [branches] array of a payload names every branch of the
    server exactly once. *)
Theorem every_branch_is_reported_once (inputs : list JsValue) :
  Permutation
    (Object_keys (branches (run Number_toString_other level inputs initial)))
    (map fst (branches (run Number_toString_other level inputs initial)))
  /\ NoDup
       (Object_keys
          (branches (run Number_toString_other level inputs initial)))
  /\ List.length
       (Object_keys
          (branches (run Number_toString_other level inputs initial)))
     = List.length (branches (run Number_toString_other level inputs initial)).
Proof.
  pose proof (Object_keys_Permutation
                (branches (run Number_toString_other level inputs initial)))
    as Hp.
  destruct (well_formed_session Number_toString_other level inputs initial
              well_formed_initial) as [Hnd _].
  split; [exact Hp|]. split.
  - apply (Permutation_NoDup (Permutation_sym Hp) Hnd).
  - rewrite (Permutation_length Hp). apply length_map.
Qed.

End Keys.

(** ** Validation and rendering *)

(** X11.  Validation succeeds exactly on the inputs that can be read
    and whose reflection is a non-empty string, whose [stepNumber] and
    [totalSteps] are numbers other than 0 and NaN -- negative,
    fractional and infinite ones included -- and whose [nextStepNeeded]
    is a boolean; the step it returns holds the fields of the input as
    they are, the five optional ones unchecked. *)
Theorem validation_accepts_exactly (input : JsValue) (d : CodePlanningData) :
  validateCodePlanningData input = Return d
  <-> nullish input = false
      /\ present_string (member input "codeReflection") = true
      /\ present_number (member input "stepNumber") = true
      /\ present_number (member input "totalSteps") = true
      /\ is_boolean (member input "nextStepNeeded") = true
      /\ d = {| codeReflection := as_string (member input "codeReflection");
                stepNumber := as_number (member input "stepNumber");
                totalSteps := as_number (member input "totalSteps");
                nextStepNeeded := as_boolean (member input "nextStepNeeded");
                isRevision := member input "isRevision";
                revisesStep := member input "revisesStep";
                branchFromStep := member input "branchFromStep";
                branchId := member input "branchId";
                needsMoreSteps := member input "needsMoreSteps" |}.
Proof.
  destruct (nullish input) eqn:Hn.
  - rewrite (validate_nullish _ Hn). split; [discriminate|].
    intros [H _]. discriminate.
  - rewrite (validate_readable _ Hn).
    rewrite missing_string, !missing_number, not_boolean.
    destruct (present_string (member input "codeReflection")); simpl;
      [|split; [discriminate | intros (_ & H & _); discriminate]].
    destruct (present_number (member input "stepNumber")); simpl;
      [|split; [discriminate | intros (_ & _ & H & _); discriminate]].
    destruct (present_number (member input "totalSteps")); simpl;
      [|split; [discriminate | intros (_ & _ & _ & H & _); discriminate]].
    destruct (is_boolean (member input "nextStepNeeded")); simpl;
      [|split; [discriminate | intros (_ & _ & _ & _ & H & _); discriminate]].
    split.
    + intros [= <-]. repeat split.
    + intros (_ & _ & _ & _ & _ & ->). reflexivity.
Qed.

Lemma padEnd_length (s : jsstring) (targetLength : nat) :
  List.length (padEnd s targetLength)
  = Nat.max (List.length s) targetLength.
Proof.
  unfold padEnd. rewrite length_app, repeat_length. lia.
Qed.

Section Rendering.

Variable Number_toString_other : Q -> jsstring.
Variable level : nat.

(** X12.  The framed block is five rows after a leading line break.  The
    two borders, the separator and the row of the reflection all have
    the same width, [max (header length) (reflection length) + 6]; the
    reflection is left-aligned in its row.  The row of the header is not
    padded: its width is the header length plus 4, always at least 2
    short of the others. *)
Theorem rows_of_the_framed_block (d : CodePlanningData) (block : jsstring) :
  formatCodeReflection Number_toString_other level d = Return block ->
  exists header top header_row separator text_row bottom,
    header_line Number_toString_other level d = Return header
    /\ block = newline :: top ++ newline :: header_row
               ++ newline :: separator ++ newline :: text_row
               ++ newline :: bottom
    /\ header_row = [box_vertical; space] ++ header ++ [space; box_vertical]
    /\ text_row
       = [box_vertical; space] ++ codeReflection d
         ++ repeat space
              (Nat.max (List.length header) (List.length (codeReflection d))
               + 2 - List.length (codeReflection d))
         ++ [space; box_vertical]
    /\ List.length top
       = (Nat.max (List.length header) (List.length (codeReflection d)) + 6)%nat
    /\ List.length separator = List.length top
    /\ List.length bottom = List.length top
    /\ List.length text_row = List.length top
    /\ List.length header_row = (List.length header + 4)%nat
    /\ (List.length header_row + 2 <= List.length top)%nat.
Proof.
  unfold formatCodeReflection.
  destruct (header_line Number_toString_other level d) as [header|e];
    simpl; [|discriminate].
  intros [= <-].
  set (border := border_line header (codeReflection d)).
  assert (Hb : List.length border
               = (Nat.max (List.length header)
                    (List.length (codeReflection d)) + 4)%nat)
    by apply repeat_length.
  exists header,
    ([box_top_left] ++ border ++ [box_top_right]),
    ([box_vertical; space] ++ header ++ [space; box_vertical]),
    ([box_tee_left] ++ border ++ [box_tee_right]),
    ([box_vertical; space]
     ++ padEnd (codeReflection d) (List.length border - 2)
     ++ [space; box_vertical]),
    ([box_bottom_left] ++ border ++ [box_bottom_right]).
  split; [reflexivity|]. split.
  { simpl. rewrite <- !app_assoc. simpl. reflexivity. }
  split; [reflexivity|]. split.
  { unfold padEnd. rewrite Hb.
    replace (Nat.max (List.length header) (List.length (codeReflection d))
             + 4 - 2 - List.length (codeReflection d))%nat
      with (Nat.max (List.length header) (List.length (codeReflection d))
            + 2 - List.length (codeReflection d))%nat by lia.
    now rewrite <- app_assoc. }
  simpl. rewrite !length_app, padEnd_length, Hb. simpl.
  repeat split; lia.
Qed.

(** No conversion of a field throws on a step that is neither a revision
    nor a branch step. *)
Lemma format_plain_step (d : CodePlanningData) :
  truthy (isRevision d) = false ->
  truthy (branchFromStep d) = false ->
  exists block,
    formatCodeReflection Number_toString_other level d = Return block.
Proof.
  intros Hr Hb.
  unfold formatCodeReflection, header_line, prefix_and_context.
  rewrite Hr, Hb. simpl. eexists. reflexivity.
Qed.

Lemma adjust_keeps_fields (d : CodePlanningData) :
  isRevision (adjust d) = isRevision d
  /\ revisesStep (adjust d) = revisesStep d
  /\ branchFromStep (adjust d) = branchFromStep d
  /\ branchId (adjust d) = branchId d
  /\ codeReflection (adjust d) = codeReflection d
  /\ stepNumber (adjust d) = stepNumber d
  /\ nextStepNeeded (adjust d) = nextStepNeeded d.
Proof.
  unfold adjust. now destruct (number_gt (stepNumber d) (totalSteps d)).
Qed.

(** X13.  A valid step that is neither a revision nor a branch step
    always succeeds, whatever its other optional fields hold: they are
    not looked at.  The branch map is untouched, the history and the
    diagnostic stream gain one element each. *)
Theorem plain_steps_always_succeed
  (input : JsValue) (st : State) (d : CodePlanningData) :
  validateCodePlanningData input = Return d ->
  truthy (isRevision d) = false ->
  truthy (branchFromStep d) = false ->
  exists block,
    formatCodeReflection Number_toString_other level (adjust d) = Return block
    /\ processCodePlanning Number_toString_other level input st
       = ({| reflectionHistory := reflectionHistory st ++ [adjust d];
             branches := branches st;
             stderr := stderr st ++ [block] |},
          success_result
            (success_payload (adjust d) (recorded (adjust d) st))).
Proof.
  intros Hv Hr Hb.
  destruct (adjust_keeps_fields d) as (Er & _ & Eb & _).
  destruct (format_plain_step (adjust d)) as [block Hf];
    [now rewrite Er | now rewrite Eb |].
  exists block. split; auto.
  rewrite (process_valid _ _ _ _ _ Hv), register_branch_cases, Eb, Hb, Hf.
  reflexivity.
Qed.

End Rendering.

(** ** The request handler *)

Lemma planning_input_readable (args : JsValue) :
  nullish args = false -> planning_input args = Return (renamed args).
Proof.
  intros H. unfold planning_input. now rewrite !(Get_member _ _ H).
Qed.

Lemma planning_input_nullish (args : JsValue) :
  nullish args = true ->
  planning_input args
  = Throw (TypeError (ReadPropertyOfNullish args (lit "thought"))).
Proof.
  intros H. unfold planning_input. now rewrite (Get_nullish _ _ H).
Qed.

Lemma member_renamed (args : JsValue) :
  member (renamed args) "codeReflection" = member args "thought"
  /\ member (renamed args) "stepNumber" = member args "thoughtNumber"
  /\ member (renamed args) "totalSteps" = member args "totalThoughts"
  /\ member (renamed args) "nextStepNeeded" = member args "nextThoughtNeeded"
  /\ member (renamed args) "isRevision" = member args "isRevision"
  /\ member (renamed args) "revisesStep" = member args "revisesThought"
  /\ member (renamed args) "branchFromStep" = member args "branchFromThought"
  /\ member (renamed args) "branchId" = member args "branchId"
  /\ member (renamed args) "needsMoreSteps" = member args "needsMoreThoughts".
Proof. repeat split. Qed.

(** The optional fields of a validated step are those of the input. *)
Lemma validate_Return_optional (input : JsValue) (d : CodePlanningData) :
  validateCodePlanningData input = Return d ->
  isRevision d = member input "isRevision"
  /\ revisesStep d = member input "revisesStep"
  /\ branchFromStep d = member input "branchFromStep"
  /\ branchId d = member input "branchId"
  /\ needsMoreSteps d = member input "needsMoreSteps".
Proof.
  intros Hv.
  destruct (validate_Return _ _ Hv) as (Hn & _).
  rewrite (validate_readable _ Hn) in Hv.
  repeat match type of Hv with
         | (if ?b then _ else _) = _ => destruct b; [discriminate|]
         end.
  injection Hv as <-. repeat split.
Qed.

Section Requests.

Variable Number_toString_other : Q -> jsstring.
Variable level : nat.

Let process := processCodePlanning Number_toString_other level.
Let handler := call_tool_handler Number_toString_other level.

Lemma handler_routed (request : CallToolRequest) (st : State) :
  name request = lit "cleancode" ->
  nullish (arguments request) = false ->
  handler request st
  = (fst (process (renamed (arguments request)) st),
     Return (Planned (snd (process (renamed (arguments request)) st)))).
Proof.
  intros Hname Hargs. unfold handler, call_tool_handler.
  rewrite Hname, jsstring_eqb_refl, (planning_input_readable _ Hargs).
  unfold bind, lift. fold process.
  now destruct (process (renamed (arguments request)) st).
Qed.

(** X14.  A session of tool calls leaves the server in the state that
    [processCodePlanning] reaches on the planning inputs of the calls
    named ["cleancode"] that carry arguments, in their order.  A call to
    another tool is answered with ["Unknown tool: <name>"]; a call
    without arguments makes the handler throw; neither changes the
    state. *)
Theorem serve_is_run_on_the_routed_inputs
  (requests : list CallToolRequest) (st : State) :
  serve Number_toString_other level requests st
  = run Number_toString_other level (inputs_of requests) st
  /\ forall request st',
       (name request <> lit "cleancode" ->
        handler request st'
        = (st', Return (Plain (unknown_tool (name request)))))
       /\ (name request = lit "cleancode" ->
           nullish (arguments request) = true ->
           handler request st'
           = (st',
              Throw (TypeError
                       (ReadPropertyOfNullish (arguments request)
                          (lit "thought"))))).
Proof.
  split.
  - revert st. induction requests as [|request rest IH]; intros st; simpl;
      auto.
    unfold call_tool_handler.
    destruct (jsstring_eqb (name request) (lit "cleancode")); simpl.
    + unfold bind, lift.
      destruct (planning_input (arguments request)) as [input|e]; simpl.
      * rewrite <- IH. f_equal.
        now destruct (processCodePlanning _ _ input st).
      * apply IH.
    + apply IH.
  - intros request st'. split.
    + intros Hname. unfold handler, call_tool_handler.
      now rewrite (jsstring_eqb_neq _ _ Hname).
    + intros Hname Hargs. unfold handler, call_tool_handler.
      rewrite Hname, jsstring_eqb_refl, (planning_input_nullish _ Hargs).
      reflexivity.
Qed.

(** X15.  Seen from the caller, the four checks bear on the arguments
    [thought], [thoughtNumber], [totalThoughts] and [nextThoughtNeeded],
    in that order, while the messages name the internal fields: a call
    whose [thought] is missing is refused with ["Invalid codeReflection:
    must be a string"].  An argument passed under an internal name
    ([codeReflection], [stepNumber], ...) is not read.  When no check
    refuses, the step that is validated holds the arguments. *)
Theorem refusals_seen_from_the_caller
  (request : CallToolRequest) (st : State) :
  name request = lit "cleancode" ->
  nullish (arguments request) = false ->
  match first_refused_argument (arguments request) with
  | Some c =>
      handler request st = (st, Return (Planned (error_result (message c))))
  | None =>
      exists d,
        validateCodePlanningData (renamed (arguments request)) = Return d
        /\ JString (codeReflection d) = member (arguments request) "thought"
        /\ JNumber (stepNumber d)
           = member (arguments request) "thoughtNumber"
        /\ JNumber (totalSteps d)
           = member (arguments request) "totalThoughts"
        /\ JBool (nextStepNeeded d)
           = member (arguments request) "nextThoughtNeeded"
        /\ isRevision d = member (arguments request) "isRevision"
        /\ revisesStep d = member (arguments request) "revisesThought"
        /\ branchFromStep d = member (arguments request) "branchFromThought"
        /\ branchId d = member (arguments request) "branchId"
        /\ needsMoreSteps d = member (arguments request) "needsMoreThoughts"
  end.
Proof.
  intros Hname Hargs.
  rewrite (handler_routed _ _ Hname Hargs).
  pose proof (validate_first_failure (renamed (arguments request)) eq_refl)
    as Hv.
  destruct (member_renamed (arguments request))
    as (Ec & Es & Et & En & Ei & Er & Eb & Eid & Em).
  unfold first_failing_check, checks in Hv. simpl find in Hv.
  rewrite Ec, Es, Et, En in Hv.
  unfold first_refused_argument, argument_checks. simpl find.
  destruct (present_string (member (arguments request) "thought"));
    simpl in Hv |- *;
    [|unfold process; now rewrite (process_invalid _ _ _ _ _ Hv)].
  destruct (present_number (member (arguments request) "thoughtNumber"));
    simpl in Hv |- *;
    [|unfold process; now rewrite (process_invalid _ _ _ _ _ Hv)].
  destruct (present_number (member (arguments request) "totalThoughts"));
    simpl in Hv |- *;
    [|unfold process; now rewrite (process_invalid _ _ _ _ _ Hv)].
  destruct (is_boolean (member (arguments request) "nextThoughtNeeded"));
    simpl in Hv |- *;
    [|unfold process; now rewrite (process_invalid _ _ _ _ _ Hv)].
  destruct Hv as [d Hv]. exists d. split; auto.
  destruct (validate_Return _ _ Hv)
    as (_ & Hc & _ & Hs & _ & Ht & _ & Hn).
  destruct (validate_Return_optional _ _ Hv) as (Hi & Hr & Hb & Hid & Hm).
  rewrite <- Hc, <- Hs, <- Ht, <- Hn, Hi, Hr, Hb, Hid, Hm.
  repeat split; assumption.
Qed.

End Requests.

(** ** Arguments that conform to the advertised schema *)

Lemma at_least_one_is_truthy (q : Q) :
  Qle_bool (inject_Z 1) q = true -> number_truthy (Finite q) = true.
Proof.
  unfold Qle_bool. simpl. intros H. apply Z.leb_le in H.
  apply negb_true_iff, Z.eqb_neq. lia.
Qed.

(** What the schema says of a conforming object, field by field. *)
Lemma conforming_fields (args : JsValue) :
  conforms args = true ->
  nullish args = false
  /\ (exists s, member args "thought" = JString s)
  /\ (exists b, member args "nextThoughtNeeded" = JBool b)
  /\ (exists q, member args "thoughtNumber" = JNumber (Finite q)
                /\ number_truthy (Finite q) = true)
  /\ (exists q, member args "totalThoughts" = JNumber (Finite q)
                /\ number_truthy (Finite q) = true)
  /\ primitive (member args "revisesThought") = true
  /\ (member args "branchFromThought" = JUndefined
      \/ exists q, member args "branchFromThought" = JNumber (Finite q)
                   /\ number_truthy (Finite q) = true)
  /\ (member args "branchId" = JUndefined
      \/ exists key, member args "branchId" = JString key).
Proof.
  destruct args as [| | | | | |props]; try discriminate.
  unfold conforms, member, Get. simpl forallb. intros H.
  repeat match goal with
         | Hc : _ && _ = true |- _ =>
             apply andb_prop in Hc; destruct Hc as [? ?]
         end.
  split; [reflexivity|].
  repeat match goal with
         | Hp : match own_property props ?k with _ => _ end = true |- _ =>
             destruct (own_property props k) as [[| |?|[|?|?]|?| |]|];
             unfold has_type in *; simpl property_type in *;
             simpl minimum in *; cbv iota in *;
             try match goal with
                 | Hf : false = true |- _ => discriminate Hf
                 end
         end.
  all: repeat match goal with
       | Hp : _ && Qle_bool _ _ = true |- _ =>
           apply andb_prop in Hp; destruct Hp as [_ Hp];
           apply at_least_one_is_truthy in Hp
       end.
  all: repeat split; eauto.
Qed.

Section Schema.

Variable Number_toString_other : Q -> jsstring.
Variable level : nat.

Let handler := call_tool_handler Number_toString_other level.

Lemma format_primitive_fields (d : CodePlanningData) :
  primitive (revisesStep d) = true ->
  primitive (branchFromStep d) = true ->
  primitive (branchId d) = true ->
  exists block,
    formatCodeReflection Number_toString_other level d = Return block.
Proof.
  intros Hr Hf Hi.
  destruct (ToString_primitive Number_toString_other _ Hr) as [sr Hsr].
  destruct (ToString_primitive Number_toString_other _ Hf) as [sf Hsf].
  destruct (ToString_primitive Number_toString_other _ Hi) as [si Hsi].
  unfold formatCodeReflection, header_line, prefix_and_context.
  rewrite Hsr, Hsf, Hsi.
  destruct (truthy (isRevision d)); [|destruct (truthy (branchFromStep d))];
    simpl; eexists; reflexivity.
Qed.

(** X16.  Arguments that conform to the advertised [inputSchema] are
    refused when [thought] is the empty string, which the schema allows.
    Otherwise they pass validation, and the call succeeds unless it asks
    for a branch whose identifier is a name of [Object.prototype] that
    the branch map does not hold: that is the one way a conforming call
    ends with an error. *)
Theorem conforming_calls
  (args : JsValue) (st : State) :
  conforms args = true ->
  (member args "thought" = JString [] ->
   handler {| name := lit "cleancode"; arguments := args |} st
   = (st, Return (Planned (error_result msg_codeReflection))))
  /\ (member args "thought" <> JString [] ->
      exists d st' result,
        validateCodePlanningData (renamed args) = Return d
        /\ handler {| name := lit "cleancode"; arguments := args |} st
           = (st', Return (Planned result))
        /\ (isError result = None \/ isError result = Some true)
        /\ (isError result = Some true
            <-> exists key,
                  member args "branchFromThought" <> JUndefined
                  /\ member args "branchId" = JString key
                  /\ key <> []
                  /\ branches_get (branches st) key = FromPrototype)).
Proof.
  intros Hc.
  destruct (conforming_fields _ Hc)
    as (Hn & [s Hs] & [b Hb] & (qn & Hqn & Htn) & (qt & Hqt & Htt)
        & Hrev & Hfrom & Hid).
  assert (Hh : handler {| name := lit "cleancode"; arguments := args |} st
               = (fst (processCodePlanning Number_toString_other level
                         (renamed args) st),
                  Return (Planned
                            (snd (processCodePlanning Number_toString_other
                                    level (renamed args) st)))))
    by (apply handler_routed; auto).
  destruct (member_renamed args)
    as (Ec & Es & Et & En & Ei & Er & Ebf & Eid & Em).
  pose proof (validate_first_failure (renamed args) eq_refl) as Hv.
  unfold first_failing_check, checks in Hv. simpl find in Hv.
  rewrite Ec, Es, Et, En, Hs, Hb, Hqn, Hqt in Hv.
  assert (Hpn : present_number (JNumber (Finite qn)) = true).
  { simpl. rewrite <- Qnum_zero. exact Htn. }
  assert (Hpt : present_number (JNumber (Finite qt)) = true).
  { simpl. rewrite <- Qnum_zero. exact Htt. }
  rewrite Hpn, Hpt in Hv. simpl in Hv.
  split.
  - intros He. rewrite Hs in He. injection He as ->. simpl in Hv.
    rewrite Hh, (process_invalid _ _ _ _ _ Hv). reflexivity.
  - intros Hne. destruct s as [|c s]; [now rewrite Hs in Hne|].
    simpl in Hv. destruct Hv as [d Hv].
    destruct (validate_Return_optional _ _ Hv) as (_ & Hr & Hbf & Hbi & _).
    rewrite Er in Hr. rewrite Ebf in Hbf. rewrite Eid in Hbi.
    destruct (adjust_keeps_fields d) as (_ & Ar & Abf & Abi & _).
    destruct (format_primitive_fields (adjust d)) as [block Hf].
    { now rewrite Ar, Hr. }
    { rewrite Abf, Hbf. destruct Hfrom as [->|(q & -> & _)]; reflexivity. }
    { rewrite Abi, Hbi. destruct Hid as [->|(key & ->)]; reflexivity. }
    pose proof (process_valid Number_toString_other level _ st _ Hv) as Hp.
    rewrite register_branch_cases, Abf, Abi, Hbf, Hbi, Hf in Hp.
    simpl branches in Hp.
    exists d. do 2 eexists. split; [exact Hv|]. split; [exact Hh|].
    destruct Hfrom as [Hu|(q & Hq & Hqt')].
    + rewrite Hu in Hp. simpl in Hp. rewrite Hp. simpl.
      split; auto. split; [discriminate|].
      intros (key & Hk & _). now elim Hk.
    + rewrite Hq in Hp.
      change (truthy (JNumber (Finite q))) with (number_truthy (Finite q))
        in Hp.
      rewrite Hqt' in Hp.
      destruct Hid as [Hu|(key & Hk)].
      * rewrite Hu in Hp. simpl in Hp. rewrite Hp. simpl.
        split; auto. split; [discriminate|].
        intros (key & _ & Hk & _). congruence.
      * rewrite Hk in Hp. destruct key as [|c' key].
        -- simpl in Hp. rewrite Hp. simpl.
           split; auto. split; [discriminate|].
           intros (key & _ & Hk' & Hne' & _). congruence.
        -- simpl truthy in Hp. simpl andb in Hp. simpl ToString in Hp.
           cbv iota in Hp.
           destruct (branches_get (branches st) (c' :: key)) eqn:Hg;
             rewrite Hp; simpl.
           ++ split; auto. split; [discriminate|].
              intros (key' & _ & Hk' & _ & Hg'). congruence.
           ++ split; auto. split; auto.
              intros _. exists (c' :: key). rewrite Hq.
              repeat split; try discriminate; assumption.
           ++ split; auto. split; [discriminate|].
              intros (key' & _ & Hk' & _ & Hg'). congruence.
Qed.

End Schema.

(** ** Errors after validation *)

(** The one exception [ToString] throws. *)
Lemma ToString_throws_only (other : Q -> jsstring) :
  forall v e,
    ToString other v = Throw e -> e = TypeError CannotConvertToPrimitive.
Proof.
  fix IH 1. intros v e. destruct v as [| |b|n|s|items|props]; simpl;
    try discriminate.
  - destruct b; discriminate.
  - induction items as [|x rest IHrest]; [discriminate|].
    intros H.
    assert (Hx : forall ex, ToString other x = Throw ex ->
                            ex = TypeError CannotConvertToPrimitive)
      by (intros ex; apply IH).
    destruct x as [| |b|n|s|items'|props'];
      try (destruct rest; [discriminate H|];
           simpl in H;
           match type of H with
           | cbind ?c _ = _ =>
               destruct c as [t|et] eqn:Ht; simpl in H;
               [discriminate H | injection H as <-; now apply IHrest]
           end).
    + destruct (ToString other (JBool b)) as [t|et] eqn:Hb; simpl in H.
      * destruct rest; [discriminate H|]. simpl in H.
        match type of H with
        | cbind ?c _ = _ =>
            destruct c as [t'|et] eqn:Ht; simpl in H;
            [discriminate H | injection H as <-; now apply IHrest]
        end.
      * injection H as <-. now apply Hx.
    + destruct (ToString other (JArray items')) as [t|et] eqn:Hb;
        simpl in H.
      * destruct rest; [discriminate H|]. simpl in H.
        match type of H with
        | cbind ?c _ = _ =>
            destruct c as [t'|et] eqn:Ht; simpl in H;
            [discriminate H | injection H as <-; now apply IHrest]
        end.
      * injection H as <-. now apply Hx.
    + destruct (ToString other (JObject props')) as [t|et] eqn:Hb;
        simpl in H.
      * destruct rest; [discriminate H|]. simpl in H.
        match type of H with
        | cbind ?c _ = _ =>
            destruct c as [t'|et] eqn:Ht; simpl in H;
            [discriminate H | injection H as <-; now apply IHrest]
        end.
      * injection H as <-. now apply Hx.
  - destruct (own_property props (lit "toString")); [|discriminate].
    now intros [= <-].
Qed.

Section LateErrors.

Variable Number_toString_other : Q -> jsstring.
Variable level : nat.

Lemma format_throws_only (d : CodePlanningData) (e : exn) :
  formatCodeReflection Number_toString_other level d = Throw e ->
  e = TypeError CannotConvertToPrimitive.
Proof.
  unfold formatCodeReflection, header_line, prefix_and_context.
  destruct (truthy (isRevision d)).
  - destruct (ToString Number_toString_other (revisesStep d)) as [r|er] eqn:Hr;
      simpl; [discriminate|].
    intros [= <-]. now apply (ToString_throws_only _ _ _ Hr).
  - destruct (truthy (branchFromStep d)); [|discriminate].
    destruct (ToString Number_toString_other (branchFromStep d))
      as [f|ef] eqn:Hf; simpl.
    + destruct (ToString Number_toString_other (branchId d))
        as [i|ei] eqn:Hi; simpl; [discriminate|].
      intros [= <-]. now apply (ToString_throws_only _ _ _ Hi).
    + intros [= <-]. now apply (ToString_throws_only _ _ _ Hf).
Qed.

(** X17.  When a call fails although its input is valid, the step is in
    the history, and the error is one of two: [push] called on what the
    prototype answers for the branch name, or a field that cannot be
    converted to a string.  Reading [push] of a branch that is not there
    never happens. *)
Theorem errors_after_validation
  (input : JsValue) (st : State) (d : CodePlanningData) :
  validateCodePlanningData input = Return d ->
  isError (snd (processCodePlanning Number_toString_other level input st))
  = Some true ->
  reflectionHistory
    (fst (processCodePlanning Number_toString_other level input st))
  = reflectionHistory st ++ [adjust d]
  /\ (snd (processCodePlanning Number_toString_other level input st)
      = error_result
          (lit "this.branches[validatedInput.branchId].push is not a function")
      \/ snd (processCodePlanning Number_toString_other level input st)
         = error_result (lit "Cannot convert object to primitive value")).
Proof.
  intros Hv Herr. split.
  - pose proof (process_history Number_toString_other level input st) as Hh.
    now rewrite Hv in Hh.
  - rewrite (process_valid _ _ _ _ _ Hv) in Herr |- *.
    rewrite register_branch_cases in Herr |- *.
    destruct (truthy (branchFromStep (adjust d))
              && truthy (branchId (adjust d))).
    + destruct (ToString Number_toString_other (branchId (adjust d)))
        as [key|e] eqn:Hk.
      * destruct (branches_get (branches (recorded (adjust d) st)) key).
        -- destruct (formatCodeReflection Number_toString_other level
                       (adjust d)) as [block|e] eqn:Hf; [discriminate|].
           right. simpl. now rewrite (format_throws_only _ _ Hf).
        -- now left.
        -- destruct (formatCodeReflection Number_toString_other level
                       (adjust d)) as [block|e] eqn:Hf; [discriminate|].
           right. simpl. now rewrite (format_throws_only _ _ Hf).
      * right. simpl. now rewrite (ToString_throws_only _ _ _ Hk).
    + destruct (formatCodeReflection Number_toString_other level (adjust d))
        as [block|e] eqn:Hf; [discriminate|].
      right. simpl. now rewrite (format_throws_only _ _ Hf).
Qed.

End LateErrors.

(** ** The further properties at work on sample requests *)

Lemma reported_length_witness :
  returned "reflectionHistoryLength"
    (snd (processCodePlanning integers_only 0 add_retry_logic
            (run integers_only 0
               [absent_stepNumber; branch_named_constructor;
                design_module_layout] initial)))
  = Some (JNumber (of_Z 3)).
Proof.
  exact (reported_length_counts_validated_inputs integers_only 0
           [absent_stepNumber; branch_named_constructor; design_module_layout]
           add_retry_logic eq_refl).
Defined.

Lemma branch_steps_witness :
  In add_retry_logic_validated
    (reflectionHistory (run integers_only 0 [add_retry_logic] initial))
  /\ ToString integers_only (branchId add_retry_logic_validated)
     = Return (lit "retry-strategy").
Proof.
  destruct (branch_steps_are_history_steps integers_only 0 [add_retry_logic]
              (lit "retry-strategy") [add_retry_logic_validated]
              add_retry_logic_validated eq_refl (or_introl eq_refl))
    as (Hh & _ & _ & Hk & _).
  split; [exact Hh | exact Hk].
Defined.

Lemma branches_only_grow_witness :
  exists added,
    lookup
      (branches
         (run integers_only 0 [design_module_layout; add_retry_logic]
            (run integers_only 0 [add_retry_logic] initial)))
      (lit "retry-strategy")
    = Some ([add_retry_logic_validated] ++ added)
    /\ Forall (fun d => branch_key integers_only d
                        = Some (lit "retry-strategy")) added.
Proof.
  exact (branches_only_grow integers_only 0
           [design_module_layout; add_retry_logic]
           (run integers_only 0 [add_retry_logic] initial)
           (lit "retry-strategy") [add_retry_logic_validated] eq_refl).
Defined.

Lemma rows_witness :
  exists top header_row text_row : jsstring,
    List.length top = 39%nat
    /\ List.length text_row = 39%nat
    /\ List.length header_row = 37%nat.
Proof.
  destruct (rows_of_the_framed_block integers_only 0
              (adjust revisit_step_1_validated) revisit_block eq_refl)
    as (header & top & header_row & separator & text_row & bottom
        & Hh & _ & _ & _ & Ht & _ & _ & Hx & Hr & _).
  injection Hh as <-.
  exists top, header_row, text_row.
  rewrite Hx, Ht, Hr. repeat split.
Defined.

Lemma plain_step_witness :
  isError
    (snd (processCodePlanning integers_only 0 design_module_layout initial))
  = None.
Proof.
  destruct (plain_steps_always_succeed integers_only 0 design_module_layout
              initial design_module_layout_validated eq_refl eq_refl eq_refl)
    as (block & _ & Hp).
  rewrite Hp. reflexivity.
Defined.

Lemma internal_names_witness :
  call_tool_handler integers_only 0 internal_names_request initial
  = (initial, Return (Planned (error_result msg_codeReflection))).
Proof.
  exact (refusals_seen_from_the_caller integers_only 0
           internal_names_request initial eq_refl eq_refl).
Defined.

Lemma conforming_calls_witness :
  conforms empty_thought_arguments = true
  /\ call_tool_handler integers_only 0
       {| name := lit "cleancode"; arguments := empty_thought_arguments |}
       initial
     = (initial, Return (Planned (error_result msg_codeReflection)))
  /\ conforms retry_arguments = true
  /\ exists d st' result,
       validateCodePlanningData (renamed retry_arguments) = Return d
       /\ call_tool_handler integers_only 0
            {| name := lit "cleancode"; arguments := retry_arguments |}
            initial
          = (st', Return (Planned result)).
Proof.
  split; [reflexivity|]. split.
  - exact (proj1 (conforming_calls integers_only 0 empty_thought_arguments
                    initial eq_refl) eq_refl).
  - split; [reflexivity|].
    assert (Hne : member retry_arguments "thought" <> JString [])
      by discriminate.
    destruct (proj2 (conforming_calls integers_only 0 retry_arguments
                       initial eq_refl) Hne)
      as (d & st' & result & Hv & Hh & _).
    exists d, st', result. split; [exact Hv | exact Hh].
Defined.

Lemma errors_after_validation_witness :
  reflectionHistory
    (fst (processCodePlanning integers_only 0 revision_of_an_object initial))
  = [revision_of_an_object_validated].
Proof.
  exact (proj1 (errors_after_validation integers_only 0
                  revision_of_an_object initial
                  revision_of_an_object_validated eq_refl eq_refl)).
Defined.

Lemma ToString_converts (other : Q -> jsstring) :
  forall v,
    match ToString other v with
    | Return _ => converts v = true
    | Throw _ => converts v = false
    end.
Proof.
  fix IH 1. intros v. destruct v as [| |b|n|s|items|props]; simpl; auto.
  - now destruct b.
  - induction items as [|x rest IHrest]; [reflexivity|].
    pose proof (IH x) as Hx.
    assert (Hrest :
      forall s : jsstring,
        match
          match rest with
          | [] => Return s
          | _ :: _ =>
              cbind (ToString other (JArray rest))
                (fun t => Return (s ++ 44%N :: t))
          end
        with
        | Return _ => converts (JArray rest) = true
        | Throw _ => converts (JArray rest) = false
        end).
    { change (match ToString other (JArray rest) with
              | Return _ => converts (JArray rest) = true
              | Throw _ => converts (JArray rest) = false
              end) in IHrest.
      intros s. destruct rest as [|y rest']; [reflexivity|].
      destruct (ToString other (JArray (y :: rest'))); exact IHrest. }
    clear IHrest.
    destruct x as [| |b|n|s|items'|props'];
      try exact (Hrest _).
    + destruct b; exact (Hrest _).
    + change (match
                cbind (ToString other (JArray items'))
                  (fun s =>
                     match rest with
                     | [] => Return s
                     | _ :: _ =>
                         cbind (ToString other (JArray rest))
                           (fun t => Return (s ++ 44%N :: t))
                     end)
              with
              | Return _ =>
                  converts (JArray items') && converts (JArray rest) = true
              | Throw _ =>
                  converts (JArray items') && converts (JArray rest) = false
              end).
      destruct (ToString other (JArray items')) as [s|e]; rewrite Hx.
      * exact (Hrest s).
      * reflexivity.
    + change (match
                cbind (ToString other (JObject props'))
                  (fun s =>
                     match rest with
                     | [] => Return s
                     | _ :: _ =>
                         cbind (ToString other (JArray rest))
                           (fun t => Return (s ++ 44%N :: t))
                     end)
              with
              | Return _ =>
                  converts (JObject props') && converts (JArray rest) = true
              | Throw _ =>
                  converts (JObject props') && converts (JArray rest) = false
              end).
      destruct (ToString other (JObject props')) as [s|e]; rewrite Hx.
      * exact (Hrest s).
      * reflexivity.
  - now destruct (own_property props (lit "toString")).
Qed.

Lemma converts_interpolated_adjust (d : CodePlanningData) :
  interpolated (adjust d) = interpolated d.
Proof.
  unfold interpolated, adjust.
  now destruct (number_gt (stepNumber d) (totalSteps d)).
Qed.

Section RenderingErrors.

Variable Number_toString_other : Q -> jsstring.
Variable level : nat.

(** Rendering returns when the interpolated fields convert and throws
    the [TypeError] of the conversion when one does not. *)
Lemma format_converts (d : CodePlanningData) :
  match formatCodeReflection Number_toString_other level d with
  | Return _ => forallb converts (interpolated d) = true
  | Throw e =>
      forallb converts (interpolated d) = false
      /\ e = TypeError CannotConvertToPrimitive
  end.
Proof.
  pose proof (format_throws_only Number_toString_other level d) as Honly.
  unfold formatCodeReflection, header_line, prefix_and_context, interpolated
    in *.
  destruct (truthy (isRevision d)).
  - pose proof (ToString_converts Number_toString_other (revisesStep d)) as Hr.
    destruct (ToString Number_toString_other (revisesStep d)); simpl in *.
    + now rewrite Hr.
    + rewrite Hr. split; auto.
  - destruct (truthy (branchFromStep d)); [|reflexivity].
    pose proof (ToString_converts Number_toString_other (branchFromStep d))
      as Hf.
    pose proof (ToString_converts Number_toString_other (branchId d)) as Hi.
    destruct (ToString Number_toString_other (branchFromStep d)); simpl in *.
    + destruct (ToString Number_toString_other (branchId d)); simpl in *.
      * now rewrite Hf, Hi.
      * rewrite Hf, Hi. split; auto.
    + rewrite Hf. split; auto.
Qed.

(** C7 (as the code has it).  Rendering a validated step never changes
    the history or the branches.  It throws exactly when a field that
    the taken label interpolates -- [revisesStep] for a truthy
    [isRevision]; otherwise [branchFromStep] and [branchId] for a truthy
    [branchFromStep]; none otherwise -- is, or holds inside arrays, an
    object with a ["toString"] property of its own.  When it does not
    throw, the result of the call is the one the steps before rendering
    fixed, and one block is written to the diagnostic stream.  When it
    throws, nothing is written and the error result of the conversion
    takes the place of the success payload. *)
Theorem C7_rendering_throws_exactly_on_unconvertible_fields
  (input : JsValue) (st : State) (d : CodePlanningData) :
  validateCodePlanningData input = Return d ->
  ((exists line,
      formatCodeReflection Number_toString_other level (adjust d)
      = Return line)
   <-> forallb converts (interpolated d) = true)
  /\ forall st2 c,
       register_branch Number_toString_other (adjust d)
         (recorded (adjust d) st) = (st2, c) ->
       reflectionHistory
         (fst (processCodePlanning Number_toString_other level input st))
       = reflectionHistory st2
       /\ branches
            (fst (processCodePlanning Number_toString_other level input st))
          = branches st2
       /\ (forallb converts (interpolated d) = true ->
           exists line,
             formatCodeReflection Number_toString_other level (adjust d)
             = Return line
             /\ snd (processCodePlanning Number_toString_other level input st)
                = match c with
                  | Return _ =>
                      success_result (success_payload (adjust d) st2)
                  | Throw e => error_result (exn_message e)
                  end
             /\ stderr
                  (fst (processCodePlanning Number_toString_other level
                          input st))
                = match c with
                  | Return _ => stderr st2 ++ [line]
                  | Throw _ => stderr st2
                  end)
       /\ (forallb converts (interpolated d) = false ->
           formatCodeReflection Number_toString_other level (adjust d)
           = Throw (TypeError CannotConvertToPrimitive)
           /\ snd (processCodePlanning Number_toString_other level input st)
              = match c with
                | Return _ =>
                    error_result
                      (lit "Cannot convert object to primitive value")
                | Throw e => error_result (exn_message e)
                end
           /\ stderr
                (fst (processCodePlanning Number_toString_other level
                        input st))
              = stderr st2).
Proof.
  intros Hv.
  pose proof (format_converts (adjust d)) as Hf.
  rewrite converts_interpolated_adjust in Hf.
  split.
  - destruct (formatCodeReflection Number_toString_other level (adjust d))
      as [line|e].
    + split; auto. intros _. now exists line.
    + destruct Hf as [Hf _]. split.
      * intros [line Hl]. discriminate.
      * congruence.
  - intros st2 c Hreg.
    rewrite (process_valid _ _ _ _ _ Hv), Hreg.
    destruct (formatCodeReflection Number_toString_other level (adjust d))
      as [line|e].
    + destruct c as [[]|e]; simpl; repeat split; auto;
        try (intros _; exists line; now repeat split); congruence.
    + destruct Hf as [Hf ->].
      destruct c as [[]|e]; simpl; repeat split; auto; congruence.
Qed.

(** X10.  The [branches] array a successful call reports lists the keys
    of the branch map with the array indices first, by increasing
    numeric value, and the other keys after them in the order in which
    their branches were created.  So it departs from the order of
    creation as soon as a branch whose key is not an array index was
    created before one whose key is. *)
Theorem reported_branches_order (input : JsValue) (st : State) :
  isError (snd (processCodePlanning Number_toString_other level input st))
  = None ->
  exists indices names,
    returned "branches"
      (snd (processCodePlanning Number_toString_other level input st))
    = Some (JArray (map JString (indices ++ names)))
    /\ Permutation indices
         (filter is_index
            (map fst
               (branches
                  (fst (processCodePlanning Number_toString_other level
                          input st)))))
    /\ StronglySorted (fun a c => (index_value a <= index_value c)%N) indices
    /\ names
       = filter (fun key => negb (is_index key))
           (map fst
              (branches
                 (fst (processCodePlanning Number_toString_other level
                         input st))))
    /\ forall before name between index after,
         map fst
           (branches
              (fst (processCodePlanning Number_toString_other level
                      input st)))
         = before ++ name :: between ++ index :: after ->
         is_index name = false ->
         is_index index = true ->
         indices ++ names
         <> map fst
              (branches
                 (fst (processCodePlanning Number_toString_other level
                         input st))).
Proof.
  intros Hok.
  destruct (process_success _ _ _ _ Hok)
    as (d & st2 & line & _ & _ & _ & Hp).
  rewrite Hp. simpl fst. simpl snd.
  change (branches (emitted line st2)) with (branches st2).
  exists (map snd (index_keys (map fst (branches st2)))),
         (filter (fun key => negb (is_index key)) (map fst (branches st2))).
  split; [reflexivity|].
  split; [apply index_keys_Permutation|].
  split; [apply sorted_by_index_value;
          [apply index_keys_tagged | apply index_keys_sorted]|].
  split; [reflexivity|].
  intros before name between index after Hkeys Hname Hindex Heq.
  apply (indices_before_names
           (map snd (index_keys (map fst (branches st2))))
           (filter (fun key => negb (is_index key)) (map fst (branches st2)))
           before name between index after); auto.
  - rewrite Forall_forall. intros key Hk. now apply In_index_keys in Hk.
  - rewrite Forall_forall. intros key Hk. apply filter_In in Hk.
    now apply negb_true_iff.
  - now rewrite Heq.
Qed.

End RenderingErrors.

Lemma C7_witness :
  forallb converts (interpolated revision_with_odd_branchId_validated) = true
  /\ exists line,
       formatCodeReflection integers_only 0
         (adjust revision_with_odd_branchId_validated) = Return line
       /\ snd (processCodePlanning integers_only 0
                 revision_with_odd_branchId initial)
          = success_result
              (success_payload (adjust revision_with_odd_branchId_validated)
                 (recorded (adjust revision_with_odd_branchId_validated)
                    initial)).
Proof.
  split; [reflexivity|].
  destruct (C7_rendering_throws_exactly_on_unconvertible_fields
              integers_only 0 revision_with_odd_branchId initial
              revision_with_odd_branchId_validated eq_refl) as [_ H].
  destruct (H (recorded (adjust revision_with_odd_branchId_validated) initial)
              (Return tt) eq_refl) as (_ & _ & Hret & _).
  destruct (Hret eq_refl) as (line & Hline & Hres & _).
  exists line. split; [exact Hline | exact Hres].
Defined.

Lemma reported_branches_order_witness :
  exists indices names,
    returned "branches"
      (snd (processCodePlanning integers_only 0 (branch_step "9")
              (run integers_only 0 [branch_step "beta"; branch_step "10"]
                 initial)))
    = Some (JArray (map JString (indices ++ names)))
    /\ indices ++ names <> [lit "beta"; lit "10"; lit "9"].
Proof.
  destruct (reported_branches_order integers_only 0 (branch_step "9")
              (run integers_only 0 [branch_step "beta"; branch_step "10"]
                 initial) eq_refl)
    as (indices & names & Hret & _ & _ & _ & Hne).
  exists indices, names. split; [exact Hret|].
  exact (Hne [] (lit "beta") [] (lit "10") [lit "9"]
           eq_refl eq_refl eq_refl).
Defined.
